(** * dimensiondata_backup_client: reconciliation of backup clients

    A shallow embedding of [cloud/dimensiondata/dimensiondata_backup_client.py]
    and the properties of its reconciliation loop [handle_backup_client].

    The Ansible module object and the libcloud backup driver are the two
    collaborators of the code.  The driver is a capability interface
    ([BackupDriver]) over an abstract provider state; [module.fail_json] and
    [module.exit_json] end the process and are modelled as the ways a run can
    stop.  Every driver call is recorded in a call log so that statements of
    the form "exactly one add call" can be written down. *)

From stdpp Require Import base gmap strings list.

(** ** Python values, exceptions and string helpers *)

(** The exceptions that reach this module: the provider's API exception,
    which carries [msg], and the [AttributeError] of an attribute access on
    [None]. *)
Inductive exn :=
| DimensionDataAPIException (msg : string)
| AttributeError (msg : string).

(** A value stored in a serialized client: a string or [None]. *)
Inductive pyval :=
| PyStr (s : string)
| PyNone.

Global Instance pyval_eq_dec : EqDecision pyval.
Proof. solve_decision. Defined.

Global Instance exn_eq_dec : EqDecision exn.
Proof. solve_decision. Defined.

Definition pyval_of (o : option string) : pyval :=
  match o with
  | Some s => PyStr s
  | None => PyNone
  end.

(** [s.endswith(suffix)] *)
Fixpoint endswith (s suffix : string) : bool :=
  if String.eqb s suffix then true
  else match s with
       | EmptyString => false
       | String _ s' => endswith s' suffix
       end.

(** [needle in s]: used to say that a message names a target. *)
Fixpoint contains (needle s : string) : bool :=
  if String.prefix needle s then true
  else match s with
       | EmptyString => false
       | String _ s' => contains needle s'
       end.

(** [x == v] for a string [x] and a parameter [v] that may be [None]. *)
Definition py_eq (x : string) (v : option string) : bool :=
  match v with
  | Some y => String.eqb x y
  | None => false
  end.

(** ** Data model *)

(** [client.type], of which the code reads [.type]. *)
Module ClientType.
Record t := { type : string }.
End ClientType.

(** A backup client as the driver returns it. *)
Module BackupClient.
Record t := {
  id : string;
  type : ClientType.t;
  storage_policy : string;
  schedule_policy : string;
  download_url : option string
}.
End BackupClient.

(** The backup details of a target, the driver's
    [DimensionDataBackupDetails]: of its attributes, the plan [service_plan]
    and the list [clients]. *)
Module BackupDetails.
Record t := {
  service_plan : string;
  clients : list BackupClient.t
}.
End BackupDetails.

(** [module.params], with the keys of [argument_spec] that the
    reconciliation reads.  A key without a value holds [None]. *)
Module Params.
Record t := {
  state : string;
  node_ids : list string;
  client_type : option string;
  schedule_policy : option string;
  storage_policy : option string;
  notify_email : string;
  notify_trigger : string
}.
End Params.

(** The keyword arguments of [module.exit_json]. *)
Record report := {
  changed : bool;
  msg : string;
  backups : gmap string (gmap string pyval)
}.

(** ** The provider *)

(** A call made on the driver, with its arguments. *)
Inductive call :=
| CallGetDetails (server_id : string)
| CallAddClient (server_id client_type storage_policy schedule_policy
                 trigger notify_email : string)
| CallRemoveClient (server_id : string) (backup_client : BackupClient.t)
| CallUpdateTarget (server_id : string) (extra : gmap string string).

Definition is_add (c : call) : bool :=
  match c with CallAddClient _ _ _ _ _ _ => true | _ => false end.

(** The four operations of [DimensionDataBackupDriver] that the module
    uses, over a provider state [W].  An operation returns normally or
    raises. *)
Class BackupDriver (W : Type) := {
  ex_get_backup_details_for_target :
    string -> W -> (exn + BackupDetails.t) * W;
  ex_add_client_to_target :
    string -> string -> string -> string -> string -> string ->
    W -> (exn + BackupClient.t) * W;
  ex_remove_client_from_target :
    string -> BackupClient.t -> W -> (exn + unit) * W;
  update_target :
    string -> gmap string string -> W -> (exn + unit) * W
}.

(** ** Runs *)

(** How a run stops: [exit_json], [fail_json], or an exception nobody
    catches. *)
Inductive stop :=
| ExitJson (r : report)
| FailJson (msg : string)
| Uncaught (e : exn).

Inductive result (A : Type) :=
| Returned (a : A)
| Stopped (t : stop).
Arguments Returned {A} a.
Arguments Stopped {A} t.

(** The state threaded through a run: the provider and the call log. *)
Record run_state (W : Type) := RunState {
  world : W;
  calls : list call
}.
Arguments RunState {W} world calls.
Arguments world {W} r.
Arguments calls {W} r.

Definition M (W A : Type) : Type := run_state W -> result A * run_state W.

Definition ret {W A} (a : A) : M W A := fun s => (Returned a, s).

Definition bind {W A B} (m : M W A) (k : A -> M W B) : M W B :=
  fun s =>
    match m s with
    | (Returned a, s') => k a s'
    | (Stopped t, s') => (Stopped t, s')
    end.

Declare Scope run_scope.
Delimit Scope run_scope with run.
Notation "x <- m ;; k" := (bind m (fun x => k))
  (at level 100, m at next level, right associativity) : run_scope.
Notation "m ;;; k" := (bind m (fun _ => k))
  (at level 100, right associativity) : run_scope.
Open Scope run_scope.

Definition fail_json {W A} (msg : string) : M W A :=
  fun s => (Stopped (FailJson msg), s).

Definition exit_json {W A} (r : report) : M W A :=
  fun s => (Stopped (ExitJson r), s).

Definition raise {W A} (e : exn) : M W A :=
  fun s => (Stopped (Uncaught e), s).

(** A driver call: it is logged, then it returns or raises. *)
Definition perform {W A} (c : call) (op : W -> (exn + A) * W) : M W A :=
  fun s =>
    match op (world s) with
    | (inr a, w') => (Returned a, RunState w' (calls s ++ [c]))
    | (inl e, w') => (Stopped (Uncaught e), RunState w' (calls s ++ [c]))
    end.

(** [try: m  except DimensionDataAPIException as e: handler e.msg] *)
Definition try_except_api {W A} (m : M W A) (handler : string -> M W A)
  : M W A :=
  fun s =>
    match m s with
    | (Stopped (Uncaught (DimensionDataAPIException e_msg)), s') =>
        handler e_msg s'
    | other => other
    end.

(** [for x in xs: acc = body x acc] *)
Fixpoint for_each {W A B} (xs : list A) (body : A -> B -> M W B) (acc : B)
  : M W B :=
  match xs with
  | [] => ret acc
  | x :: rest => acc' <- body x acc ;; for_each rest body acc'
  end.

(** ** The module's functions *)

Definition get_backup_client (details : BackupDetails.t)
    (client_type : option string) : option BackupClient.t :=
  if 0 <? length (BackupDetails.clients details) then
    List.find
      (fun client =>
         py_eq (ClientType.type (BackupClient.type client)) client_type)
      (BackupDetails.clients details)
  else None.

(** The dictionary built from a client that is not [None]. *)
Definition client_dict (backup_client : BackupClient.t)
  : gmap string pyval :=
  <["download_url" := pyval_of (BackupClient.download_url backup_client)]>
  (<["schedule_policy" := PyStr (BackupClient.schedule_policy backup_client)]>
  (<["storage_policy" := PyStr (BackupClient.storage_policy backup_client)]>
  (<["client_type" :=
       PyStr (ClientType.type (BackupClient.type backup_client))]>
  (<["id" := PyStr (BackupClient.id backup_client)]> ∅)))).

Definition _backup_client_obj_to_dict {W}
    (backup_client : option BackupClient.t) : M W (gmap string pyval) :=
  match backup_client with
  | Some c => ret (client_dict c)
  | None => raise (AttributeError "'NoneType' object has no attribute 'id'")
  end.

(** [backup_details.sevice_plan], as line 194 spells it: the details have
    the attribute [service_plan] and none of this name, so the read
    raises. *)
Definition getattr_sevice_plan {W} (backup_details : BackupDetails.t)
  : M W string :=
  raise (AttributeError
           "'DimensionDataBackupDetails' object has no attribute 'sevice_plan'").

Section Reconciler.
Context {W : Type} `{BackupDriver W}.
Variable params : Params.t.

Definition get_backup_details_for_host (server_id : string)
  : M W BackupDetails.t :=
  try_except_api
    (perform (CallGetDetails server_id)
             (ex_get_backup_details_for_target server_id))
    (fun e_msg =>
       if endswith e_msg "has not been provisioned for backup"
       then fail_json
              ("Server " +:+ server_id +:+ " does not have backup enabled")
       else fail_json
              ("Problem finding backup info for host: " +:+ e_msg)).

Definition remove_client_from_server (server_id : string)
    (backup_client : BackupClient.t) : M W unit :=
  try_except_api
    (perform (CallRemoveClient server_id backup_client)
             (ex_remove_client_from_target server_id backup_client))
    (fun e_msg =>
       fail_json ("Failed removing client from host: " +:+ e_msg)).

(** [getkeyordie k], with [v = module.params[k]] read at the call. *)
Definition getkeyordie (k : string) (v : option string) : M W string :=
  match v with
  | None => fail_json ("Need key " +:+ k +:+ " for adding a client")
  | Some v => ret v
  end.

Definition add_client_to_server (server_id : string)
  : M W BackupClient.t :=
  storage_policy <-
    getkeyordie "storage_policy" (Params.storage_policy params) ;;
  schedule_policy <-
    getkeyordie "schedule_policy" (Params.schedule_policy params) ;;
  client_type <- getkeyordie "client_type" (Params.client_type params) ;;
  let trigger := Params.notify_trigger params in
  let notify_email := Params.notify_email params in
  try_except_api
    (perform (CallAddClient server_id client_type storage_policy
                            schedule_policy trigger notify_email)
             (ex_add_client_to_target server_id client_type storage_policy
                                      schedule_policy trigger notify_email))
    (fun e_msg => fail_json ("Failed adding client to host: " +:+ e_msg)).

Definition modify_backup_for_server (server_id service_plan : string)
  : M W unit :=
  let extra : gmap string string := {[ "servicePlan" := service_plan ]} in
  perform (CallUpdateTarget server_id extra) (update_target server_id extra).

(** One iteration of the loop of [handle_backup_client], on the loop's
    two variables [changed] and [server_clients_return].  Each test of the
    chain of [if]/[elif] is [state == ... and backup_client is (not) None];
    here the test on [backup_client] comes first, and under it the states
    are tested in the order of the code, with the final [else] last. *)
Definition loop_body (server_id : string)
    (vars : bool * gmap string (gmap string pyval))
  : M W (bool * gmap string (gmap string pyval)) :=
  let '(changed, server_clients_return) := vars in
  let state := Params.state params in
  let client_type := Params.client_type params in
  backup_details <- get_backup_details_for_host server_id ;;
  match get_backup_client backup_details client_type with
  | None =>
      if String.eqb state "absent" then
        ret (changed, server_clients_return)
      else if String.eqb state "present" then
        let changed := true in
        add_client_to_server server_id ;;;
        backup_details <- get_backup_details_for_host server_id ;;
        let backup_client := get_backup_client backup_details client_type in
        d <- _backup_client_obj_to_dict backup_client ;;
        ret (changed, <[server_id := d]> server_clients_return)
      else fail_json "Unhandled state"
  | Some backup_client =>
      if String.eqb state "absent" then
        let changed := true in
        remove_client_from_server server_id backup_client ;;;
        ret (changed, server_clients_return)
      else if String.eqb state "present" then
        existing_service_plan <- getattr_sevice_plan backup_details ;;
        modify_backup_for_server server_id existing_service_plan ;;;
        d <- _backup_client_obj_to_dict (Some backup_client) ;;
        ret (changed, <[server_id := d]> server_clients_return)
      else fail_json "Unhandled state"
  end.

Definition handle_backup_client : M W unit :=
  vars <- for_each (Params.node_ids params) loop_body (false, ∅) ;;
  exit_json {| changed := fst vars;
               msg := "Success";
               backups := snd vars |}.

(** The run started in [s0] gets to target [server_id] with the loop
    variables [vars] in the state [s]: the targets [before] it have been
    processed and none of them stopped the run. *)
Definition reaches (s0 : run_state W) (before : list string)
    (server_id : string) (after : list string)
    (vars : bool * gmap string (gmap string pyval)) (s : run_state W)
  : Prop :=
  Params.node_ids params = before ++ server_id :: after /\
  for_each before loop_body (false, ∅) s0 = (Returned vars, s).

(** The first of the keys that [add_client_to_server] asks for and that
    has no value. *)
Definition missing_key : option string :=
  match Params.storage_policy params with
  | None => Some "storage_policy"
  | Some _ =>
      match Params.schedule_policy params with
      | None => Some "schedule_policy"
      | Some _ =>
          match Params.client_type params with
          | None => Some "client_type"
          | Some _ => None
          end
      end
  end.

End Reconciler.

(** ** A scripted provider

    A test double for the driver: the provider state is the list of the
    replies still to be given, and every call consumes the next one. *)
Module Scripted.

Inductive reply :=
| Details (d : BackupDetails.t)
| Client (c : BackupClient.t)
| Done
| Raises (e : exn).

Definition next {A} (pick : reply -> option A) (w : list reply)
  : (exn + A) * list reply :=
  match w with
  | [] => (inl (DimensionDataAPIException "no reply scripted"), [])
  | Raises e :: w' => (inl e, w')
  | r :: w' =>
      match pick r with
      | Some a => (inr a, w')
      | None => (inl (DimensionDataAPIException "unexpected reply"), w')
      end
  end.

Definition pick_details (r : reply) : option BackupDetails.t :=
  match r with Details d => Some d | _ => None end.
Definition pick_client (r : reply) : option BackupClient.t :=
  match r with Client c => Some c | _ => None end.
Definition pick_done (r : reply) : option unit :=
  match r with Done => Some () | _ => None end.

#[global] Instance driver : BackupDriver (list reply) := {|
  ex_get_backup_details_for_target _ := next pick_details;
  ex_add_client_to_target _ _ _ _ _ _ := next pick_client;
  ex_remove_client_from_target _ _ := next pick_done;
  update_target _ _ := next pick_done
|}.

Definition start (w : list reply) : run_state (list reply) := RunState w [].

End Scripted.

(** ** An in-memory provider

    A second test double, with a state of its own: the backup details of
    the targets that are provisioned for backup, by target id. *)
Module InMemory.

Definition new_client (client_type storage_policy schedule_policy : string)
  : BackupClient.t :=
  {| BackupClient.id := "client-" +:+ client_type;
     BackupClient.type := {| ClientType.type := client_type |};
     BackupClient.storage_policy := storage_policy;
     BackupClient.schedule_policy := schedule_policy;
     BackupClient.download_url := None |}.

Definition not_provisioned (server_id : string) : exn :=
  DimensionDataAPIException
    ("Server " +:+ server_id +:+ " has not been provisioned for backup").

Definition on_target {A} (server_id : string)
    (w : gmap string BackupDetails.t)
    (k : BackupDetails.t -> A * gmap string BackupDetails.t)
  : (exn + A) * gmap string BackupDetails.t :=
  match w !! server_id with
  | Some d => let '(a, w') := k d in (inr a, w')
  | None => (inl (not_provisioned server_id), w)
  end.

#[global] Instance driver : BackupDriver (gmap string BackupDetails.t) := {|
  ex_get_backup_details_for_target server_id w :=
    on_target server_id w (fun d => (d, w));
  ex_add_client_to_target server_id client_type storage_policy
                          schedule_policy _ _ w :=
    on_target server_id w (fun d =>
      let c := new_client client_type storage_policy schedule_policy in
      (c, <[server_id :=
              {| BackupDetails.service_plan := BackupDetails.service_plan d;
                 BackupDetails.clients := BackupDetails.clients d ++ [c] |}]>
            w));
  ex_remove_client_from_target server_id backup_client w :=
    on_target server_id w (fun d =>
      ((), <[server_id :=
               {| BackupDetails.service_plan := BackupDetails.service_plan d;
                  BackupDetails.clients :=
                    List.filter
                      (fun c => negb (String.eqb (BackupClient.id c)
                                        (BackupClient.id backup_client)))
                      (BackupDetails.clients d) |}]> w));
  update_target server_id extra w :=
    on_target server_id w (fun d =>
      ((), <[server_id :=
               {| BackupDetails.service_plan :=
                    default (BackupDetails.service_plan d)
                            (extra !! "servicePlan");
                  BackupDetails.clients := BackupDetails.clients d |}]> w))
|}.

End InMemory.

(** Concrete data for the examples. *)
Module Sample.

Definition mysql_client : BackupClient.t :=
  {| BackupClient.id := "c-1";
     BackupClient.type := {| ClientType.type := "MySQL" |};
     BackupClient.storage_policy := "30 Day Storage Policy";
     BackupClient.schedule_policy := "12AM - 6AM";
     BackupClient.download_url := Some "https://backup.example/c-1" |}.

Definition linux_client : BackupClient.t :=
  {| BackupClient.id := "c-2";
     BackupClient.type := {| ClientType.type := "FA.Linux" |};
     BackupClient.storage_policy := "14 Day Storage Policy";
     BackupClient.schedule_policy := "6PM - 12AM";
     BackupClient.download_url := None |}.

Definition no_clients : BackupDetails.t :=
  {| BackupDetails.service_plan := "Essentials";
     BackupDetails.clients := [] |}.

Definition with_mysql : BackupDetails.t :=
  {| BackupDetails.service_plan := "Advanced";
     BackupDetails.clients := [linux_client; mysql_client] |}.

Definition with_linux : BackupDetails.t :=
  {| BackupDetails.service_plan := "Enterprise";
     BackupDetails.clients := [linux_client] |}.

Definition present_mysql (ids : list string) : Params.t :=
  {| Params.state := "present";
     Params.node_ids := ids;
     Params.client_type := Some "MySQL";
     Params.schedule_policy := Some "12AM - 6AM";
     Params.storage_policy := Some "30 Day Storage Policy";
     Params.notify_email := "nobody@example.com";
     Params.notify_trigger := "ON_FAILURE" |}.

Definition present_no_storage (ids : list string) : Params.t :=
  {| Params.state := "present";
     Params.node_ids := ids;
     Params.client_type := Some "MySQL";
     Params.schedule_policy := Some "12AM - 6AM";
     Params.storage_policy := None;
     Params.notify_email := "nobody@example.com";
     Params.notify_trigger := "ON_FAILURE" |}.

Definition absent_linux (ids : list string) : Params.t :=
  {| Params.state := "absent";
     Params.node_ids := ids;
     Params.client_type := Some "FA.Linux";
     Params.schedule_policy := None;
     Params.storage_policy := None;
     Params.notify_email := "nobody@example.com";
     Params.notify_trigger := "ON_FAILURE" |}.

End Sample.

(** ** Vocabulary for statements about whole runs *)

(** The target a call is made on. *)
Definition call_target (c : call) : string :=
  match c with
  | CallGetDetails server_id => server_id
  | CallAddClient server_id _ _ _ _ _ => server_id
  | CallRemoveClient server_id _ => server_id
  | CallUpdateTarget server_id _ => server_id
  end.

Definition is_get (c : call) : bool :=
  match c with CallGetDetails _ => true | _ => false end.
Definition is_remove (c : call) : bool :=
  match c with CallRemoveClient _ _ => true | _ => false end.
Definition is_modify (c : call) : bool :=
  match c with CallUpdateTarget _ _ => true | _ => false end.

(** What a call has to do with the parameters of the run: an add call
    carries the three keys, the trigger and the email; a remove call is
    for a client of the requested type; a modify call sets [servicePlan]
    and nothing else. *)
Definition follows_params (params : Params.t) (c : call) : Prop :=
  match c with
  | CallGetDetails _ => True
  | CallAddClient _ client_type storage_policy schedule_policy
                  trigger notify_email =>
      Params.client_type params = Some client_type /\
      Params.storage_policy params = Some storage_policy /\
      Params.schedule_policy params = Some schedule_policy /\
      Params.notify_trigger params = trigger /\
      Params.notify_email params = notify_email
  | CallRemoveClient _ backup_client =>
      Params.client_type params =
        Some (ClientType.type (BackupClient.type backup_client))
  | CallUpdateTarget _ extra =>
      dom extra = ({[ "servicePlan" ]} : gset string)
  end.

(** The calls next to which the code has [changed = True]. *)
Definition sets_changed (c : call) : bool := is_add c || is_remove c.

(** The calls that processing one target can make: the read, then
    nothing, or one write, or the add and the second read. *)
Inductive target_calls (server_id : string) : list call -> Prop :=
| calls_read :
    target_calls server_id [CallGetDetails server_id]
| calls_read_remove (backup_client : BackupClient.t) :
    target_calls server_id
      [CallGetDetails server_id; CallRemoveClient server_id backup_client]
| calls_read_modify (extra : gmap string string) :
    target_calls server_id
      [CallGetDetails server_id; CallUpdateTarget server_id extra]
| calls_read_add (client_type storage_policy schedule_policy
                  trigger notify_email : string) :
    target_calls server_id
      [CallGetDetails server_id;
       CallAddClient server_id client_type storage_policy schedule_policy
                     trigger notify_email]
| calls_read_add_read (client_type storage_policy schedule_policy
                       trigger notify_email : string) :
    target_calls server_id
      [CallGetDetails server_id;
       CallAddClient server_id client_type storage_policy schedule_policy
                     trigger notify_email;
       CallGetDetails server_id].

(** The messages that the module gives to [fail_json]. *)
Inductive fail_message (ids : list string) : string -> Prop :=
| msg_not_enabled (server_id : string) :
    server_id ∈ ids ->
    fail_message ids
      ("Server " +:+ server_id +:+ " does not have backup enabled")
| msg_problem_finding (e_msg : string) :
    fail_message ids ("Problem finding backup info for host: " +:+ e_msg)
| msg_failed_removing (e_msg : string) :
    fail_message ids ("Failed removing client from host: " +:+ e_msg)
| msg_failed_adding (e_msg : string) :
    fail_message ids ("Failed adding client to host: " +:+ e_msg)
| msg_need_key (k : string) :
    k ∈ ["storage_policy"; "schedule_policy"; "client_type"] ->
    fail_message ids ("Need key " +:+ k +:+ " for adding a client")
| msg_unhandled_state :
    fail_message ids "Unhandled state".

(** ** The choices of [storage_policy] *)

Definition storage_policy_lengths : list string :=
  ["14 Day"; "30 Day"; "60 Day"; "90 Day"; "180 Day"; "1 Year"; "2 Year";
   "3 Year"; "4 Year"; "5 Year"; "6 Year"; "7 Year"].

(** The loop of [_storage_policy_choices]: two [append]s per length. *)
Fixpoint storage_policy_choices_loop (lengths : list string)
    (storage_policy_choices : list string) : list string :=
  match lengths with
  | [] => storage_policy_choices
  | storage_policy_length :: rest =>
      storage_policy_choices_loop rest
        ((storage_policy_choices
            ++ [storage_policy_length +:+ " Storage Policy"])
           ++ [storage_policy_length +:+ " Storage Policy + Secondary Copy"])
  end.

Definition _storage_policy_choices : list string :=
  storage_policy_choices_loop storage_policy_lengths [].

(** ** Strings *)

Lemma contains_cons (n : string) (a : Ascii.ascii) (s : string) :
  contains n (String a s) =
  if String.prefix n (String a s) then true else contains n s.
Proof. reflexivity. Qed.

Lemma endswith_cons (a : Ascii.ascii) (s suffix : string) :
  endswith (String a s) suffix =
  if String.eqb (String a s) suffix then true else endswith s suffix.
Proof. reflexivity. Qed.

Lemma prefix_append (n rest : string) : String.prefix n (n +:+ rest) = true.
Proof.
  induction n as [|a n IH]; simpl.
  - by destruct rest.
  - by destruct (Ascii.ascii_dec a a).
Qed.

(** A string that has [n] somewhere in the middle contains [n]. *)
Lemma contains_append (n before rest : string) :
  contains n (before +:+ n +:+ rest) = true.
Proof.
  induction before as [|a before IH].
  - simpl. destruct n as [|b n]; simpl.
    + by destruct rest.
    + destruct (Ascii.ascii_dec b b); [|done].
      by rewrite prefix_append.
  - change (contains n (String a (before +:+ n +:+ rest)) = true).
    rewrite contains_cons, IH. by destruct (String.prefix n _).
Qed.

Lemma append_empty (s : string) : s +:+ "" = s.
Proof.
  induction s as [|a s IH]; [done|].
  change (String a (s +:+ "") = String a s). by rewrite IH.
Qed.

Lemma contains_suffix (n before : string) :
  contains n (before +:+ n) = true.
Proof.
  pose proof (contains_append n before "") as Hc.
  by rewrite append_empty in Hc.
Qed.

Lemma endswith_append (before suffix : string) :
  endswith (before +:+ suffix) suffix = true.
Proof.
  induction before as [|a before IH].
  - destruct suffix; simpl; by rewrite ?Ascii.eqb_refl, ?String.eqb_refl.
  - change (endswith (String a (before +:+ suffix)) suffix = true).
    rewrite endswith_cons, IH. by destruct (String.eqb (String a _) _).
Qed.

Lemma endswith_inv (s suffix : string) :
  endswith s suffix = true -> exists before, s = before +:+ suffix.
Proof.
  induction s as [|a s IH].
  - destruct suffix; [by exists ""|done].
  - rewrite endswith_cons.
    destruct (String.eqb_spec (String a s) suffix) as [<-|_].
    + by exists "".
    + intros [before ->]%IH. by exists (String a before).
Qed.

(** ** The serialized client *)

Lemma client_dict_fields (c : BackupClient.t) :
  client_dict c !! "id" = Some (PyStr (BackupClient.id c)) /\
  client_dict c !! "client_type" =
    Some (PyStr (ClientType.type (BackupClient.type c))) /\
  client_dict c !! "storage_policy" =
    Some (PyStr (BackupClient.storage_policy c)) /\
  client_dict c !! "schedule_policy" =
    Some (PyStr (BackupClient.schedule_policy c)) /\
  client_dict c !! "download_url" =
    Some (pyval_of (BackupClient.download_url c)).
Proof. unfold client_dict. by repeat split; simplify_map_eq. Qed.

Lemma client_dict_keys (c : BackupClient.t) :
  dom (client_dict c) =
  ({[ "id"; "client_type"; "storage_policy"; "schedule_policy";
      "download_url" ]} : gset string).
Proof. unfold client_dict. rewrite !dom_insert_L, dom_empty_L. set_solver. Qed.

(** ** The loop *)

Lemma for_each_app {W A B} (xs ys : list A) (body : A -> B -> M W B)
    (acc : B) (s : run_state W) :
  for_each (xs ++ ys) body acc s =
  match for_each xs body acc s with
  | (Returned acc', s') => for_each ys body acc' s'
  | (Stopped t, s') => (Stopped t, s')
  end.
Proof.
  revert acc s. induction xs as [|x xs IH]; intros acc s; simpl; [done|].
  unfold bind. destruct (body x acc s) as [[acc'|t] s']; [apply IH|done].
Qed.

Section Runs.
Context {W : Type} `{BackupDriver W}.
Variable params : Params.t.

(** What stops the processing of a target stops the run. *)
Lemma handle_stops_at s0 before server_id after vars s t s' :
  reaches params s0 before server_id after vars s ->
  loop_body params server_id vars s = (Stopped t, s') ->
  handle_backup_client params s0 = (Stopped t, s').
Proof.
  intros [Hids Hpre] Hbody. unfold handle_backup_client, bind.
  rewrite Hids, for_each_app, Hpre. simpl. unfold bind. by rewrite Hbody.
Qed.

End Runs.


(** ** The client that [get_backup_client] finds *)

Lemma get_backup_client_Some (details : BackupDetails.t)
    (client_type : option string) (c : BackupClient.t) :
  get_backup_client details client_type = Some c ->
  c ∈ BackupDetails.clients details /\
  py_eq (ClientType.type (BackupClient.type c)) client_type = true.
Proof.
  unfold get_backup_client. destruct (0 <? _); [|done].
  intros [Hin Heq]%find_some. by rewrite list_elem_of_In.
Qed.

Lemma get_backup_client_None (details : BackupDetails.t)
    (client_type : option string) :
  get_backup_client details client_type = None <->
  forall c, c ∈ BackupDetails.clients details ->
            py_eq (ClientType.type (BackupClient.type c)) client_type = false.
Proof.
  unfold get_backup_client. split.
  - destruct (BackupDetails.clients details) as [|c0 cs] eqn:Hcs.
    + intros _ c Hc. by apply elem_of_nil in Hc.
    + simpl (0 <? _). cbv iota. intros Hfind c Hc.
      apply list_elem_of_In in Hc.
      exact (find_none _ _ Hfind c Hc).
  - intros Hall. destruct (0 <? _); [|done].
    destruct (find _ _) as [c|] eqn:Hfind; [|done].
    apply find_some in Hfind as [Hin Heq].
    apply list_elem_of_In in Hin. by rewrite (Hall c Hin) in Heq.
Qed.

(** Unfolds one step of the loop down to the driver's operations. *)
Ltac unfold_run :=
  unfold loop_body, add_client_to_server, remove_client_from_server,
    modify_backup_for_server, get_backup_details_for_host, getkeyordie,
    getattr_sevice_plan, _backup_client_obj_to_dict, try_except_api, perform,
    bind, ret,
    fail_json, exit_json, raise;
  simpl.

(** Case analysis on the next thing the step depends on: the answer of a
    driver call, a test of the code or a parameter. *)
Ltac split_answer :=
  match goal with
  | |- context [ex_get_backup_details_for_target ?a ?w] =>
      destruct (ex_get_backup_details_for_target a w) as [[[?|?]|?] ?]
  | |- context [ex_add_client_to_target ?a ?b ?c ?d ?e ?f ?w] =>
      destruct (ex_add_client_to_target a b c d e f w) as [[[?|?]|?] ?]
  | |- context [ex_remove_client_from_target ?a ?b ?w] =>
      destruct (ex_remove_client_from_target a b w) as [[[?|?]|[]] ?]
  | |- context [update_target ?a ?b ?w] =>
      destruct (update_target a b w) as [[[?|?]|[]] ?]
  | |- context [endswith ?a ?b] => destruct (endswith a b)
  | |- context [get_backup_client ?a ?b] => destruct (get_backup_client a b)
  | |- context [String.eqb (Params.state ?p) ?x] =>
      destruct (String.eqb (Params.state p) x)
  | |- context [Params.storage_policy ?p] =>
      destruct (Params.storage_policy p)
  | |- context [Params.schedule_policy ?p] =>
      destruct (Params.schedule_policy p)
  | |- context [Params.client_type ?p] => destruct (Params.client_type p)
  end; simpl.

(** Replaces a driver call by its answer. *)
Ltac answer H := rewrite ?H; simpl.

Section Stops.
Context {W : Type} `{BackupDriver W}.
Variable params : Params.t.

(** Processing a target never ends the run with [exit_json], and what it
    stops with does not depend on the loop variables. *)
Lemma loop_body_stop (server_id : string)
    (vars vars' : bool * gmap string (gmap string pyval))
    (s s' : run_state W) (t : stop) :
  loop_body params server_id vars s = (Stopped t, s') ->
  (forall r, t <> ExitJson r) /\
  loop_body params server_id vars' s = (Stopped t, s').
Proof.
  destruct s as [w tr], vars as [changed0 scr], vars' as [changed1 scr1].
  unfold_run. repeat split_answer; by intros [= <- <-].
Qed.

Lemma for_each_stop (ids : list string)
    (vars : bool * gmap string (gmap string pyval))
    (s s' : run_state W) (t : stop) :
  for_each ids (loop_body params) vars s = (Stopped t, s') ->
  forall r, t <> ExitJson r.
Proof.
  revert vars s. induction ids as [|server_id ids IH]; intros vars s; [done|].
  simpl. unfold bind.
  destruct (loop_body params server_id vars s) as [[vars1|t1] s1] eqn:Hbody.
  - apply IH.
  - intros [= <- <-]. by apply (loop_body_stop _ _ vars) in Hbody as [? _].
Qed.

(** The report of a run is that of a loop that went through all targets. *)
Lemma handle_exit_inv (s0 s' : run_state W) (r : report) :
  handle_backup_client params s0 = (Stopped (ExitJson r), s') ->
  exists vars,
    for_each (Params.node_ids params) (loop_body params) (false, ∅) s0 =
      (Returned vars, s') /\
    r = {| changed := fst vars; msg := "Success"; backups := snd vars |}.
Proof.
  unfold handle_backup_client, bind.
  destruct (for_each _ _ _ s0) as [[vars|t] s1] eqn:Hloop.
  - intros [= <- <-]. by exists vars.
  - intros [= -> <-]. by destruct (for_each_stop _ _ _ _ _ Hloop r).
Qed.

End Stops.

Section Present.
Context {W : Type} `{BackupDriver W}.
Variable params : Params.t.
Hypothesis Hpresent : Params.state params = "present".


(** C5.  Desired state "present", the read of the target has no client of
    the desired type, the three keys have values, the add call returns and
    the second read has a client of the desired type: the calls are one
    read, one add and one re-read, in this order; the target's entry of the
    result map is the serialization of the client found by the re-read,
    with its five fields; the changed flag is true. *)
Theorem present_missing_adds_client
    (server_id : string) (changed0 : bool)
    (server_clients_return : gmap string (gmap string pyval))
    (w : W) (tr : list call) (d : BackupDetails.t) (w1 : W)
    (storage_policy schedule_policy client_type : string)
    (added : BackupClient.t) (w2 : W) (d' : BackupDetails.t) (w3 : W)
    (bc' : BackupClient.t) :
  ex_get_backup_details_for_target server_id w = (inr d, w1) ->
  get_backup_client d (Params.client_type params) = None ->
  Params.storage_policy params = Some storage_policy ->
  Params.schedule_policy params = Some schedule_policy ->
  Params.client_type params = Some client_type ->
  ex_add_client_to_target server_id client_type storage_policy
    schedule_policy (Params.notify_trigger params)
    (Params.notify_email params) w1 = (inr added, w2) ->
  ex_get_backup_details_for_target server_id w2 = (inr d', w3) ->
  get_backup_client d' (Some client_type) = Some bc' ->
  loop_body params server_id (changed0, server_clients_return)
            (RunState w tr) =
    (Returned (true, <[server_id := client_dict bc']> server_clients_return),
     RunState w3
       (tr ++ [CallGetDetails server_id;
               CallAddClient server_id client_type storage_policy
                 schedule_policy (Params.notify_trigger params)
                 (Params.notify_email params);
               CallGetDetails server_id])) /\
  (<[server_id := client_dict bc']> server_clients_return) !! server_id =
    Some (client_dict bc') /\
  client_dict bc' !! "id" = Some (PyStr (BackupClient.id bc')) /\
  client_dict bc' !! "client_type" = Some (PyStr client_type) /\
  client_dict bc' !! "storage_policy" =
    Some (PyStr (BackupClient.storage_policy bc')) /\
  client_dict bc' !! "schedule_policy" =
    Some (PyStr (BackupClient.schedule_policy bc')) /\
  client_dict bc' !! "download_url" =
    Some (pyval_of (BackupClient.download_url bc')).
Proof.
  intros Hget Hnone Hsp Hsc Hct Hadd Hget' Hfound'.
  split; [|split].
  - unfold_run. answer Hget. rewrite Hnone, Hpresent. simpl.
    rewrite Hsp, Hsc, Hct. simpl. answer Hadd. answer Hget'.
    rewrite Hfound'. by rewrite <- !app_assoc.
  - apply lookup_insert_eq.
  - destruct (client_dict_fields bc') as (Hid & Hty & Hrest).
    apply get_backup_client_Some in Hfound' as [_ Heq].
    apply String.eqb_eq in Heq. rewrite Heq in Hty. by split; [|split].
Qed.

(** C9.  Desired state "present", no client of the desired type at the
    first read, the add call returns, and the re-read has no client of the
    desired type either: [_backup_client_obj_to_dict] is applied to [None],
    the attribute access raises, nothing catches the exception, and the run
    ends with it and not with a [fail_json] report. *)
Theorem reread_without_client_crashes
    (s0 : run_state W) (before : list string) (server_id : string)
    (after : list string) (vars : bool * gmap string (gmap string pyval))
    (w : W) (tr : list call) (d : BackupDetails.t) (w1 : W)
    (storage_policy schedule_policy client_type : string)
    (added : BackupClient.t) (w2 : W) (d' : BackupDetails.t) (w3 : W) :
  reaches params s0 before server_id after vars (RunState w tr) ->
  ex_get_backup_details_for_target server_id w = (inr d, w1) ->
  get_backup_client d (Params.client_type params) = None ->
  Params.storage_policy params = Some storage_policy ->
  Params.schedule_policy params = Some schedule_policy ->
  Params.client_type params = Some client_type ->
  ex_add_client_to_target server_id client_type storage_policy
    schedule_policy (Params.notify_trigger params)
    (Params.notify_email params) w1 = (inr added, w2) ->
  ex_get_backup_details_for_target server_id w2 = (inr d', w3) ->
  get_backup_client d' (Some client_type) = None ->
  (forall s : run_state W,
      _backup_client_obj_to_dict
        (get_backup_client d' (Params.client_type params)) s =
      (Stopped
         (Uncaught
            (AttributeError "'NoneType' object has no attribute 'id'")),
       s)) /\
  handle_backup_client params s0 =
    (Stopped
       (Uncaught (AttributeError "'NoneType' object has no attribute 'id'")),
     RunState w3
       (tr ++ [CallGetDetails server_id;
               CallAddClient server_id client_type storage_policy
                 schedule_policy (Params.notify_trigger params)
                 (Params.notify_email params);
               CallGetDetails server_id])) /\
  forall msg, fst (handle_backup_client params s0) <> Stopped (FailJson msg).
Proof.
  intros Hreach Hget Hnone Hsp Hsc Hct Hadd Hget' Hnone'.
  assert (Hbody : loop_body params server_id vars (RunState w tr) =
    (Stopped
       (Uncaught (AttributeError "'NoneType' object has no attribute 'id'")),
     RunState w3
       (tr ++ [CallGetDetails server_id;
               CallAddClient server_id client_type storage_policy
                 schedule_policy (Params.notify_trigger params)
                 (Params.notify_email params);
               CallGetDetails server_id]))).
  { destruct vars as [changed0 scr].
    unfold_run. answer Hget. rewrite Hnone, Hpresent. simpl.
    rewrite Hsp, Hsc, Hct. simpl. answer Hadd. answer Hget'.
    rewrite Hnone'. by rewrite <- !app_assoc. }
  pose proof (handle_stops_at params _ _ _ _ _ _ _ _ Hreach Hbody) as Hrun.
  split; [|split].
  - intros s. by rewrite Hct, Hnone'.
  - exact Hrun.
  - intros msg. by rewrite Hrun.
Qed.




(** Without a value for one of the keys, processing a target makes no
    add call. *)
Lemma unset_key_step_no_add (k : string) (server_id : string)
    (vars : bool * gmap string (gmap string pyval)) (s : run_state W) :
  missing_key params = Some k ->
  List.filter is_add (calls (snd (loop_body params server_id vars s))) =
  List.filter is_add (calls s).
Proof.
  intros Hkey. destruct s as [w tr], vars as [changed0 scr].
  unfold_run.
  destruct (ex_get_backup_details_for_target server_id w)
    as [[[e_msg|e_msg]|d] w1]; simpl.
  - destruct (endswith e_msg _); simpl;
      by rewrite List.filter_app, app_nil_r.
  - by rewrite List.filter_app, app_nil_r.
  - destruct (get_backup_client d _) as [bc|];
      rewrite Hpresent; simpl.
    + by rewrite !List.filter_app, !app_nil_r.
    + unfold missing_key in Hkey.
      destruct (Params.storage_policy params); simpl;
        [|by rewrite List.filter_app, app_nil_r].
      destruct (Params.schedule_policy params); simpl;
        [|by rewrite List.filter_app, app_nil_r].
      destruct (Params.client_type params); simpl;
        [done|by rewrite List.filter_app, app_nil_r].
Qed.

Lemma unset_key_loop_no_add (k : string) (ids : list string)
    (vars : bool * gmap string (gmap string pyval)) (s : run_state W) :
  missing_key params = Some k ->
  List.filter is_add
    (calls (snd (for_each ids (loop_body params) vars s))) =
  List.filter is_add (calls s).
Proof.
  intros Hkey. revert vars s.
  induction ids as [|server_id ids IH]; intros vars s; [done|].
  simpl. unfold bind.
  pose proof (unset_key_step_no_add k server_id vars s Hkey) as Hstep.
  destruct (loop_body params server_id vars s) as [[vars'|t] s1]; simpl in *.
  - by rewrite IH.
  - done.
Qed.

(** C2, as the code has it.  Desired state "present" and one of the keys
    [storage_policy], [schedule_policy], [client_type] without a value: no
    add call is made in the whole run, and the run stops with the
    configuration error that names the first such key when it gets to a
    target whose read has no client of the desired type, right after the
    read of that target. *)
Theorem present_unset_key_fails_at_add (k : string) :
  missing_key params = Some k ->
  (forall s0 : run_state W,
      List.filter is_add (calls (snd (handle_backup_client params s0))) =
      List.filter is_add (calls s0)) /\
  (forall (s0 : run_state W) (before : list string) (server_id : string)
          (after : list string)
          (vars : bool * gmap string (gmap string pyval))
          (w : W) (tr : list call) (d : BackupDetails.t) (w1 : W),
      reaches params s0 before server_id after vars (RunState w tr) ->
      ex_get_backup_details_for_target server_id w = (inr d, w1) ->
      get_backup_client d (Params.client_type params) = None ->
      handle_backup_client params s0 =
        (Stopped (FailJson ("Need key " +:+ k +:+ " for adding a client")),
         RunState w1 (tr ++ [CallGetDetails server_id]))).
Proof.
  intros Hkey. split.
  - intros s0. unfold handle_backup_client, bind.
    pose proof (unset_key_loop_no_add k (Params.node_ids params)
                  (false, ∅) s0 Hkey) as Hloop.
    by destruct (for_each _ _ _ s0) as [[vars|t] s1].
  - intros s0 before server_id after vars w tr d w1 Hreach Hget Hnone.
    apply (handle_stops_at params _ _ _ _ _ _ _ _ Hreach).
    destruct vars as [changed0 scr].
    unfold_run. answer Hget. rewrite Hnone, Hpresent. simpl.
    unfold missing_key in Hkey.
    destruct (Params.storage_policy params); simpl;
      [|by injection Hkey as <-].
    destruct (Params.schedule_policy params); simpl;
      [|by injection Hkey as <-].
    destruct (Params.client_type params); simpl;
      [done|by injection Hkey as <-].
Qed.

End Present.

Section Absent.
Context {W : Type} `{BackupDriver W}.
Variable params : Params.t.
Hypothesis Habsent : Params.state params = "absent".

(** With desired state "absent" nothing is written to the result map. *)
Lemma absent_step_keeps_map (server_id : string)
    (vars vars' : bool * gmap string (gmap string pyval))
    (s s' : run_state W) :
  loop_body params server_id vars s = (Returned vars', s') ->
  snd vars' = snd vars.
Proof.
  destruct s as [w tr], vars as [changed0 scr]. unfold_run.
  destruct (ex_get_backup_details_for_target server_id w)
    as [[[e_msg|e_msg]|d] w1]; simpl.
  - by destruct (endswith e_msg _).
  - done.
  - destruct (get_backup_client d _) as [bc|]; rewrite Habsent; simpl.
    + destruct (ex_remove_client_from_target server_id bc w1)
        as [[[e_msg|e_msg]|[]] w2]; simpl; [done|done|].
      by intros [= <- _].
    + by intros [= <- _].
Qed.

Lemma absent_loop_keeps_map (ids : list string)
    (vars vars' : bool * gmap string (gmap string pyval))
    (s s' : run_state W) :
  for_each ids (loop_body params) vars s = (Returned vars', s') ->
  snd vars' = snd vars.
Proof.
  revert vars s. induction ids as [|server_id ids IH]; intros vars s.
  - by intros [= <- _].
  - simpl. unfold bind.
    destruct (loop_body params server_id vars s) as [[vars1|t] s1] eqn:Hbody;
      [|done].
    intros Hrest. rewrite (IH _ _ Hrest).
    exact (absent_step_keeps_map _ _ _ _ _ Hbody).
Qed.

(** C6.  Desired state "absent": no target is in the result map of the
    final report.  A target whose read has no client of the desired type is
    read and nothing else is called, and the changed flag stays as it was.
    A target whose read has one is read, then the remove call is made once
    for that client, and when it returns the changed flag is true. *)
Theorem absent_target_outcomes :
  (forall (s0 s' : run_state W) (r : report) (server_id : string),
      handle_backup_client params s0 = (Stopped (ExitJson r), s') ->
      backups r !! server_id = None) /\
  (forall (server_id : string) (changed0 : bool)
          (server_clients_return : gmap string (gmap string pyval))
          (w : W) (tr : list call) (d : BackupDetails.t) (w1 : W),
      ex_get_backup_details_for_target server_id w = (inr d, w1) ->
      get_backup_client d (Params.client_type params) = None ->
      loop_body params server_id (changed0, server_clients_return)
                (RunState w tr) =
        (Returned (changed0, server_clients_return),
         RunState w1 (tr ++ [CallGetDetails server_id]))) /\
  (forall (server_id : string) (changed0 : bool)
          (server_clients_return : gmap string (gmap string pyval))
          (w : W) (tr : list call) (d : BackupDetails.t) (w1 : W)
          (bc : BackupClient.t) (r : exn + unit) (w2 : W),
      ex_get_backup_details_for_target server_id w = (inr d, w1) ->
      get_backup_client d (Params.client_type params) = Some bc ->
      ex_remove_client_from_target server_id bc w1 = (r, w2) ->
      loop_body params server_id (changed0, server_clients_return)
                (RunState w tr) =
        (match r with
         | inr _ => Returned (true, server_clients_return)
         | inl (DimensionDataAPIException e_msg) =>
             Stopped
               (FailJson ("Failed removing client from host: " +:+ e_msg))
         | inl e => Stopped (Uncaught e)
         end,
         RunState w2 (tr ++ [CallGetDetails server_id;
                             CallRemoveClient server_id bc]))).
Proof.
  split; [|split].
  - intros s0 s' r server_id [vars [Hloop ->]]%handle_exit_inv. simpl.
    by rewrite (absent_loop_keeps_map _ _ _ _ _ Hloop).
  - intros server_id changed0 scr w tr d w1 Hget Hnone.
    unfold_run. answer Hget. by rewrite Hnone, Habsent.
  - intros server_id changed0 scr w tr d w1 bc r w2 Hget Hfound Hrm.
    unfold_run. answer Hget. rewrite Hfound, Habsent. simpl.
    answer Hrm. rewrite <- app_assoc. by destruct r as [[e_msg|e_msg]|[]].
Qed.

End Absent.

Section AnyState.
Context {W : Type} `{BackupDriver W}.
Variable params : Params.t.

(** C10.  With an empty list of targets the run makes no call on the
    driver and ends with [exit_json]: [changed] false, message "Success",
    empty result map. *)
Theorem empty_target_list_succeeds (w : W) (tr : list call) :
  Params.node_ids params = [] ->
  handle_backup_client params (RunState w tr) =
    (Stopped (ExitJson {| changed := false;
                          msg := "Success";
                          backups := ∅ |}),
     RunState w tr).
Proof. intros Hids. unfold handle_backup_client. by rewrite Hids. Qed.

(** C7.  When the read of a target raises the provider's exception, the
    run ends with [fail_json] right after that read, so that no later
    target is processed: with a message that has the target's id in it
    when the provider's message ends in "has not been provisioned for
    backup", and with a message that ends in the provider's message
    otherwise.  The same holds for the second read of a target, after an
    add call. *)
Theorem read_failure_aborts_run :
  (forall (s0 : run_state W) (before : list string) (server_id : string)
          (after : list string)
          (vars : bool * gmap string (gmap string pyval))
          (w : W) (tr : list call) (e_msg : string) (w1 : W),
      reaches params s0 before server_id after vars (RunState w tr) ->
      ex_get_backup_details_for_target server_id w =
        (inl (DimensionDataAPIException e_msg), w1) ->
      handle_backup_client params s0 =
        (Stopped
           (FailJson
              (if endswith e_msg "has not been provisioned for backup"
               then "Server " +:+ server_id +:+
                    " does not have backup enabled"
               else "Problem finding backup info for host: " +:+ e_msg)),
         RunState w1 (tr ++ [CallGetDetails server_id]))) /\
  (forall (s0 : run_state W) (before : list string) (server_id : string)
          (after : list string)
          (vars : bool * gmap string (gmap string pyval))
          (w : W) (tr : list call) (d : BackupDetails.t) (w1 : W)
          (storage_policy schedule_policy client_type : string)
          (added : BackupClient.t) (w2 : W) (e_msg : string) (w3 : W),
      reaches params s0 before server_id after vars (RunState w tr) ->
      Params.state params = "present" ->
      ex_get_backup_details_for_target server_id w = (inr d, w1) ->
      get_backup_client d (Params.client_type params) = None ->
      Params.storage_policy params = Some storage_policy ->
      Params.schedule_policy params = Some schedule_policy ->
      Params.client_type params = Some client_type ->
      ex_add_client_to_target server_id client_type storage_policy
        schedule_policy (Params.notify_trigger params)
        (Params.notify_email params) w1 = (inr added, w2) ->
      ex_get_backup_details_for_target server_id w2 =
        (inl (DimensionDataAPIException e_msg), w3) ->
      handle_backup_client params s0 =
        (Stopped
           (FailJson
              (if endswith e_msg "has not been provisioned for backup"
               then "Server " +:+ server_id +:+
                    " does not have backup enabled"
               else "Problem finding backup info for host: " +:+ e_msg)),
         RunState w3
           (tr ++ [CallGetDetails server_id;
                   CallAddClient server_id client_type storage_policy
                     schedule_policy (Params.notify_trigger params)
                     (Params.notify_email params);
                   CallGetDetails server_id]))) /\
  (forall server_id e_msg : string,
      contains server_id
        ("Server " +:+ server_id +:+ " does not have backup enabled") = true /\
      contains e_msg
        ("Problem finding backup info for host: " +:+ e_msg) = true).
Proof.
  split; [|split].
  - intros s0 before server_id after vars w tr e_msg w1 Hreach Hget.
    apply (handle_stops_at params _ _ _ _ _ _ _ _ Hreach).
    destruct vars as [changed0 scr]. unfold_run. answer Hget.
    by destruct (endswith e_msg _).
  - intros s0 before server_id after vars w tr d w1 sp sc ct added w2 e_msg
      w3 Hreach Hstate Hget Hnone Hsp Hsc Hct Hadd Hget'.
    apply (handle_stops_at params _ _ _ _ _ _ _ _ Hreach).
    destruct vars as [changed0 scr]. unfold_run. answer Hget.
    rewrite Hnone, Hstate. simpl. rewrite Hsp, Hsc, Hct. simpl.
    answer Hadd. answer Hget'. rewrite <- !app_assoc.
    by destruct (endswith e_msg _).
  - intros server_id e_msg. split.
    + apply contains_append.
    + apply contains_suffix.
Qed.

(** C8.  The targets are processed in order and whatever stops the
    processing of one of them stops the run there: the run then ends with
    that failure, which is no report and is the same whatever the loop
    variables held.  A run that ends with [exit_json] has processed every
    target of the list to its end.  Every run ends in one of the two
    ways. *)
Theorem report_only_on_full_success :
  (forall (s0 : run_state W) (before : list string) (server_id : string)
          (after : list string)
          (vars : bool * gmap string (gmap string pyval))
          (s s' : run_state W) (t : stop),
      reaches params s0 before server_id after vars s ->
      loop_body params server_id vars s = (Stopped t, s') ->
      handle_backup_client params s0 = (Stopped t, s') /\
      (forall r, t <> ExitJson r) /\
      (forall vars', loop_body params server_id vars' s = (Stopped t, s'))) /\
  (forall (s0 s' : run_state W) (r : report),
      handle_backup_client params s0 = (Stopped (ExitJson r), s') ->
      forall (before : list string) (server_id : string)
             (after : list string),
        Params.node_ids params = before ++ server_id :: after ->
        exists vars s1 vars2 s2,
          reaches params s0 before server_id after vars s1 /\
          loop_body params server_id vars s1 = (Returned vars2, s2)) /\
  (forall s0 : run_state W,
      exists t s', handle_backup_client params s0 = (Stopped t, s')).
Proof.
  split; [|split].
  - intros s0 before server_id after vars s s' t Hreach Hbody.
    split; [by eapply handle_stops_at|].
    split; [|intros vars']; by eapply loop_body_stop.
  - intros s0 s' r [vars [Hloop _]]%handle_exit_inv before server_id after
      Hids.
    rewrite Hids, for_each_app in Hloop.
    destruct (for_each before _ _ s0) as [[vars1|t] s1] eqn:Hbefore; [|done].
    simpl in Hloop. unfold bind in Hloop.
    destruct (loop_body params server_id vars1 s1) as [[vars2|t] s2]
      eqn:Hbody; [|done].
    by exists vars1, s1, vars2, s2.
  - intros s0. unfold handle_backup_client, bind.
    destruct (for_each _ _ _ s0) as [[vars|t] s1]; by eexists _, _.
Qed.

(** C4, as the code has it.  When the remove call or the add call raises
    the provider's exception, the run ends with [fail_json] right after
    that call; the message is "Failed removing client from host: " or
    "Failed adding client to host: " followed by the provider's message.
    The target's id is not put into the message. *)
Theorem write_failure_message :
  (forall (s0 : run_state W) (before : list string) (server_id : string)
          (after : list string)
          (vars : bool * gmap string (gmap string pyval))
          (w : W) (tr : list call) (d : BackupDetails.t) (w1 : W)
          (bc : BackupClient.t) (e_msg : string) (w2 : W),
      reaches params s0 before server_id after vars (RunState w tr) ->
      Params.state params = "absent" ->
      ex_get_backup_details_for_target server_id w = (inr d, w1) ->
      get_backup_client d (Params.client_type params) = Some bc ->
      ex_remove_client_from_target server_id bc w1 =
        (inl (DimensionDataAPIException e_msg), w2) ->
      handle_backup_client params s0 =
        (Stopped
           (FailJson ("Failed removing client from host: " +:+ e_msg)),
         RunState w2 (tr ++ [CallGetDetails server_id;
                             CallRemoveClient server_id bc]))) /\
  (forall (s0 : run_state W) (before : list string) (server_id : string)
          (after : list string)
          (vars : bool * gmap string (gmap string pyval))
          (w : W) (tr : list call) (d : BackupDetails.t) (w1 : W)
          (storage_policy schedule_policy client_type : string)
          (e_msg : string) (w2 : W),
      reaches params s0 before server_id after vars (RunState w tr) ->
      Params.state params = "present" ->
      ex_get_backup_details_for_target server_id w = (inr d, w1) ->
      get_backup_client d (Params.client_type params) = None ->
      Params.storage_policy params = Some storage_policy ->
      Params.schedule_policy params = Some schedule_policy ->
      Params.client_type params = Some client_type ->
      ex_add_client_to_target server_id client_type storage_policy
        schedule_policy (Params.notify_trigger params)
        (Params.notify_email params) w1 =
        (inl (DimensionDataAPIException e_msg), w2) ->
      handle_backup_client params s0 =
        (Stopped (FailJson ("Failed adding client to host: " +:+ e_msg)),
         RunState w2
           (tr ++ [CallGetDetails server_id;
                   CallAddClient server_id client_type storage_policy
                     schedule_policy (Params.notify_trigger params)
                     (Params.notify_email params)]))) /\
  (forall e_msg : string,
      contains e_msg ("Failed removing client from host: " +:+ e_msg) = true /\
      contains e_msg ("Failed adding client to host: " +:+ e_msg) = true).
Proof.
  split; [|split].
  - intros s0 before server_id after vars w tr d w1 bc e_msg w2 Hreach
      Hstate Hget Hfound Hrm.
    apply (handle_stops_at params _ _ _ _ _ _ _ _ Hreach).
    destruct vars as [changed0 scr]. unfold_run. answer Hget.
    rewrite Hfound, Hstate. simpl. answer Hrm. by rewrite <- app_assoc.
  - intros s0 before server_id after vars w tr d w1 sp sc ct e_msg w2
      Hreach Hstate Hget Hnone Hsp Hsc Hct Hadd.
    apply (handle_stops_at params _ _ _ _ _ _ _ _ Hreach).
    destruct vars as [changed0 scr]. unfold_run. answer Hget.
    rewrite Hnone, Hstate. simpl. rewrite Hsp, Hsc, Hct. simpl.
    answer Hadd. by rewrite <- app_assoc.
  - intros e_msg. split; apply contains_suffix.
Qed.

End AnyState.

(** ** The scenarios of the module on the scripted provider *)

(** One target without a MySQL client: one add, one re-read, a change. *)
Example scenario_add :
  handle_backup_client (Sample.present_mysql ["A"])
    (Scripted.start [Scripted.Details Sample.no_clients;
                     Scripted.Client Sample.mysql_client;
                     Scripted.Details Sample.with_mysql]) =
  (Stopped (ExitJson {| changed := true;
                        msg := "Success";
                        backups :=
                          {[ "A" := client_dict Sample.mysql_client ]} |}),
   RunState []
     [CallGetDetails "A";
      CallAddClient "A" "MySQL" "30 Day Storage Policy" "12AM - 6AM"
                    "ON_FAILURE" "nobody@example.com";
      CallGetDetails "A"]).
Proof. vm_compute. reflexivity. Qed.

(** Two targets to clear of their FA.Linux client, only the first has
    one: one remove call, a change, an empty result map. *)
Example scenario_remove :
  handle_backup_client (Sample.absent_linux ["A"; "B"])
    (Scripted.start [Scripted.Details Sample.with_linux;
                     Scripted.Done;
                     Scripted.Details Sample.no_clients]) =
  (Stopped (ExitJson {| changed := true; msg := "Success"; backups := ∅ |}),
   RunState []
     [CallGetDetails "A";
      CallRemoveClient "A" Sample.linux_client;
      CallGetDetails "B"]).
Proof. vm_compute. reflexivity. Qed.

(** One target that already has a MySQL client: the run ends with the
    exception of the attribute read, after the read of the target. *)
Example scenario_found :
  handle_backup_client (Sample.present_mysql ["A"])
    (Scripted.start [Scripted.Details Sample.with_mysql; Scripted.Done]) =
  (Stopped
     (Uncaught
        (AttributeError
          "'DimensionDataBackupDetails' object has no attribute 'sevice_plan'")),
   RunState [Scripted.Done] [CallGetDetails "A"]).
Proof. vm_compute. reflexivity. Qed.

(** On the in-memory provider: the first run adds the client, the second
    run on the provider as the first left it finds the client and ends
    with the exception of the attribute read. *)
Example scenario_twice :
  let w0 : gmap string BackupDetails.t := {[ "A" := Sample.no_clients ]} in
  let first := handle_backup_client (Sample.present_mysql ["A"])
                                    (RunState w0 []) in
  let second := handle_backup_client (Sample.present_mysql ["A"])
                                     (RunState (world (snd first)) []) in
  let entry : gmap string (gmap string pyval) :=
    {[ "A" := client_dict
                (InMemory.new_client "MySQL" "30 Day Storage Policy"
                                     "12AM - 6AM") ]} in
  fst first = Stopped (ExitJson {| changed := true;
                                   msg := "Success";
                                   backups := entry |}) /\
  fst second =
    Stopped
      (Uncaught
         (AttributeError
          "'DimensionDataBackupDetails' object has no attribute 'sevice_plan'")) /\
  calls (snd second) = [CallGetDetails "A"] /\
  world (snd second) = world (snd first).
Proof. vm_compute. by repeat split. Qed.

(** On the in-memory provider: a target that is not provisioned. *)
Example scenario_not_provisioned :
  handle_backup_client (Sample.absent_linux ["A"; "Z"; "B"])
    (RunState ({[ "A" := Sample.with_linux ]}
                 : gmap string BackupDetails.t) []) =
  (Stopped (FailJson "Server Z does not have backup enabled"),
   RunState ({[ "A" := {| BackupDetails.service_plan := "Enterprise";
                          BackupDetails.clients := [] |} ]}
               : gmap string BackupDetails.t)
     [CallGetDetails "A"; CallRemoveClient "A" Sample.linux_client;
      CallGetDetails "Z"]).
Proof. vm_compute. reflexivity. Qed.

(** ** The code at the inputs where it departs from its description *)

(** C3.  Desired state "present", one target "A" whose read has a MySQL
    client: the run reads the target and then raises [AttributeError] on
    the attribute [sevice_plan]; [update_target] is not called and the
    target gets no entry in a result map, as no report is made. *)
Theorem present_found_raises_before_modify :
  handle_backup_client (Sample.present_mysql ["A"])
    (Scripted.start [Scripted.Details Sample.with_mysql; Scripted.Done]) =
  (Stopped
     (Uncaught
        (AttributeError
          "'DimensionDataBackupDetails' object has no attribute 'sevice_plan'")),
   RunState [Scripted.Done] [CallGetDetails "A"]) /\
  List.filter is_modify
    (calls (snd (handle_backup_client (Sample.present_mysql ["A"])
                   (Scripted.start [Scripted.Details Sample.with_mysql;
                                    Scripted.Done])))) = [] /\
  forall r : report,
    fst (handle_backup_client (Sample.present_mysql ["A"])
           (Scripted.start [Scripted.Details Sample.with_mysql;
                            Scripted.Done])) <> Stopped (ExitJson r).
Proof.
  assert (Hrun :
    handle_backup_client (Sample.present_mysql ["A"])
      (Scripted.start [Scripted.Details Sample.with_mysql; Scripted.Done]) =
    (Stopped
       (Uncaught
          (AttributeError
          "'DimensionDataBackupDetails' object has no attribute 'sevice_plan'")),
     RunState [Scripted.Done] [CallGetDetails "A"])).
  { vm_compute. reflexivity. }
  rewrite Hrun. by repeat split.
Qed.

(** ** Counterexamples *)


(** C2 as stated fails: with [storage_policy] unset the target is read
    before the configuration error, so a call is recorded; and when the
    target already has the client the run does not get to the check of
    the keys and ends without a configuration error. *)
Lemma fail_fast_counterexample :
  Params.state (Sample.present_no_storage ["A"]) = "present" /\
  Params.storage_policy (Sample.present_no_storage ["A"]) = None /\
  handle_backup_client (Sample.present_no_storage ["A"])
    (Scripted.start [Scripted.Details Sample.no_clients]) =
  (Stopped (FailJson "Need key storage_policy for adding a client"),
   RunState [] [CallGetDetails "A"]) /\
  [CallGetDetails "A"] <> [] /\
  handle_backup_client (Sample.present_no_storage ["A"])
    (Scripted.start [Scripted.Details Sample.with_mysql; Scripted.Done]) =
  (Stopped
     (Uncaught
        (AttributeError
          "'DimensionDataBackupDetails' object has no attribute 'sevice_plan'")),
   RunState [Scripted.Done] [CallGetDetails "A"]).
Proof.
  split; [reflexivity|]. split; [reflexivity|].
  split; [vm_compute; reflexivity|].
  split; [discriminate|vm_compute; reflexivity].
Qed.

(** C4 as stated fails: the remove call for target "srv-42" raises with
    the message "boom", and the message of the fatal error does not have
    the target's id in it. *)
Lemma write_failure_names_target_counterexample :
  handle_backup_client (Sample.absent_linux ["srv-42"])
    (Scripted.start
       [Scripted.Details Sample.with_linux;
        Scripted.Raises (DimensionDataAPIException "boom")]) =
  (Stopped (FailJson "Failed removing client from host: boom"),
   RunState []
     [CallGetDetails "srv-42";
      CallRemoveClient "srv-42" Sample.linux_client]) /\
  contains "srv-42" "Failed removing client from host: boom" = false.
Proof. split; vm_compute; reflexivity. Qed.

(** ** The theorems at concrete runs

    Each theorem above is applied to a run on the scripted provider; its
    hypotheses hold there by computation. *)

Lemma present_missing_adds_client_witness :
  Params.state (Sample.present_mysql ["A"]) = "present" /\
  loop_body (Sample.present_mysql ["A"]) "A" (false, ∅)
    (Scripted.start [Scripted.Details Sample.no_clients;
                     Scripted.Client Sample.mysql_client;
                     Scripted.Details Sample.with_mysql]) =
  (Returned (true, <[ "A" := client_dict Sample.mysql_client ]> ∅),
   RunState []
     [CallGetDetails "A";
      CallAddClient "A" "MySQL" "30 Day Storage Policy" "12AM - 6AM"
                    "ON_FAILURE" "nobody@example.com";
      CallGetDetails "A"]).
Proof.
  split; [reflexivity|].
  apply (present_missing_adds_client (Sample.present_mysql ["A"]) eq_refl
           "A" false ∅
           [Scripted.Details Sample.no_clients;
            Scripted.Client Sample.mysql_client;
            Scripted.Details Sample.with_mysql] []
           Sample.no_clients
           [Scripted.Client Sample.mysql_client;
            Scripted.Details Sample.with_mysql]
           "30 Day Storage Policy" "12AM - 6AM" "MySQL"
           Sample.mysql_client [Scripted.Details Sample.with_mysql]
           Sample.with_mysql [] Sample.mysql_client); reflexivity.
Defined.

Lemma reread_without_client_crashes_witness :
  Params.state (Sample.present_mysql ["A"; "B"]) = "present" /\
  handle_backup_client (Sample.present_mysql ["A"; "B"])
    (Scripted.start [Scripted.Details Sample.no_clients;
                     Scripted.Client Sample.mysql_client;
                     Scripted.Details Sample.with_linux;
                     Scripted.Details Sample.with_mysql]) =
  (Stopped
     (Uncaught (AttributeError "'NoneType' object has no attribute 'id'")),
   RunState [Scripted.Details Sample.with_mysql]
     [CallGetDetails "A";
      CallAddClient "A" "MySQL" "30 Day Storage Policy" "12AM - 6AM"
                    "ON_FAILURE" "nobody@example.com";
      CallGetDetails "A"]).
Proof.
  split; [reflexivity|].
  apply (reread_without_client_crashes
           (Sample.present_mysql ["A"; "B"]) eq_refl
           (Scripted.start [Scripted.Details Sample.no_clients;
                            Scripted.Client Sample.mysql_client;
                            Scripted.Details Sample.with_linux;
                            Scripted.Details Sample.with_mysql])
           [] "A" ["B"] (false, ∅)
           [Scripted.Details Sample.no_clients;
            Scripted.Client Sample.mysql_client;
            Scripted.Details Sample.with_linux;
            Scripted.Details Sample.with_mysql] []
           Sample.no_clients
           [Scripted.Client Sample.mysql_client;
            Scripted.Details Sample.with_linux;
            Scripted.Details Sample.with_mysql]
           "30 Day Storage Policy" "12AM - 6AM" "MySQL"
           Sample.mysql_client
           [Scripted.Details Sample.with_linux;
            Scripted.Details Sample.with_mysql]
           Sample.with_linux [Scripted.Details Sample.with_mysql]);
    try reflexivity.
  split; reflexivity.
Defined.


Lemma present_unset_key_fails_at_add_witness :
  Params.state (Sample.present_no_storage ["A"; "B"]) = "present" /\
  missing_key (Sample.present_no_storage ["A"; "B"]) =
    Some "storage_policy" /\
  handle_backup_client (Sample.present_no_storage ["A"; "B"])
    (Scripted.start [Scripted.Details Sample.no_clients;
                     Scripted.Details Sample.no_clients]) =
  (Stopped (FailJson ("Need key " +:+ "storage_policy" +:+
                      " for adding a client")),
   RunState [Scripted.Details Sample.no_clients]
     ([] ++ [CallGetDetails "A"])).
Proof.
  split; [reflexivity|]. split; [reflexivity|].
  apply (proj2 (present_unset_key_fails_at_add
                  (Sample.present_no_storage ["A"; "B"]) eq_refl
                  "storage_policy" eq_refl)
           (Scripted.start [Scripted.Details Sample.no_clients;
                            Scripted.Details Sample.no_clients])
           [] "A" ["B"] (false, ∅)
           [Scripted.Details Sample.no_clients;
            Scripted.Details Sample.no_clients]
           [] Sample.no_clients [Scripted.Details Sample.no_clients]).
  - split; reflexivity.
  - reflexivity.
  - reflexivity.
Defined.

Lemma absent_target_outcomes_witness :
  Params.state (Sample.absent_linux ["A"; "B"]) = "absent" /\
  loop_body (Sample.absent_linux ["A"; "B"]) "B" (true, ∅)
    (RunState [Scripted.Details Sample.no_clients] []) =
  (Returned (true, ∅), RunState [] ([] ++ [CallGetDetails "B"])) /\
  loop_body (Sample.absent_linux ["A"; "B"]) "A" (false, ∅)
    (RunState [Scripted.Details Sample.with_linux; Scripted.Done] []) =
  (Returned (true, ∅),
   RunState [] ([] ++ [CallGetDetails "A";
                       CallRemoveClient "A" Sample.linux_client])).
Proof.
  split; [reflexivity|].
  destruct (absent_target_outcomes (W:=list Scripted.reply)
              (Sample.absent_linux ["A"; "B"]) eq_refl)
    as (_ & Hnone & Hfound).
  split.
  - by apply (Hnone "B" true ∅ _ [] Sample.no_clients []).
  - by apply (Hfound "A" false ∅ _ [] Sample.with_linux [Scripted.Done]
                Sample.linux_client (inr ()) []).
Defined.

Lemma empty_target_list_succeeds_witness :
  Params.node_ids (Sample.absent_linux []) = [] /\
  handle_backup_client (Sample.absent_linux [])
    (RunState [Scripted.Details Sample.no_clients] []) =
  (Stopped (ExitJson {| changed := false; msg := "Success"; backups := ∅ |}),
   RunState [Scripted.Details Sample.no_clients] []).
Proof.
  split; [reflexivity|].
  apply (empty_target_list_succeeds (Sample.absent_linux [])). reflexivity.
Defined.

Lemma read_failure_aborts_run_witness :
  handle_backup_client (Sample.absent_linux ["A"; "B"; "C"])
    (Scripted.start
       [Scripted.Details Sample.with_linux; Scripted.Done;
        Scripted.Raises
          (DimensionDataAPIException
             "Server B has not been provisioned for backup");
        Scripted.Details Sample.with_linux; Scripted.Done]) =
  (Stopped (FailJson ("Server " +:+ "B" +:+ " does not have backup enabled")),
   RunState [Scripted.Details Sample.with_linux; Scripted.Done]
     ([CallGetDetails "A"; CallRemoveClient "A" Sample.linux_client] ++
      [CallGetDetails "B"])).
Proof.
  apply (proj1 (read_failure_aborts_run (Sample.absent_linux ["A"; "B"; "C"]))
           _ ["A"] "B" ["C"] (true, ∅)
           [Scripted.Raises
              (DimensionDataAPIException
                 "Server B has not been provisioned for backup");
            Scripted.Details Sample.with_linux; Scripted.Done]
           [CallGetDetails "A"; CallRemoveClient "A" Sample.linux_client]
           "Server B has not been provisioned for backup"
           [Scripted.Details Sample.with_linux; Scripted.Done]).
  - split; reflexivity.
  - reflexivity.
Defined.

Lemma report_only_on_full_success_witness :
  handle_backup_client (Sample.absent_linux ["A"; "B"])
    (Scripted.start
       [Scripted.Details Sample.with_linux; Scripted.Done;
        Scripted.Raises (DimensionDataAPIException "down")]) =
  (Stopped (FailJson "Problem finding backup info for host: down"),
   RunState []
     [CallGetDetails "A"; CallRemoveClient "A" Sample.linux_client;
      CallGetDetails "B"]).
Proof.
  apply (proj1 (report_only_on_full_success (Sample.absent_linux ["A"; "B"]))
           _ ["A"] "B" [] (true, ∅)
           (RunState [Scripted.Raises (DimensionDataAPIException "down")]
              [CallGetDetails "A";
               CallRemoveClient "A" Sample.linux_client])).
  - split; reflexivity.
  - reflexivity.
Defined.

Lemma write_failure_message_witness :
  handle_backup_client (Sample.absent_linux ["srv-42"])
    (Scripted.start
       [Scripted.Details Sample.with_linux;
        Scripted.Raises (DimensionDataAPIException "boom")]) =
  (Stopped (FailJson ("Failed removing client from host: " +:+ "boom")),
   RunState []
     ([] ++ [CallGetDetails "srv-42";
             CallRemoveClient "srv-42" Sample.linux_client])) /\
  handle_backup_client (Sample.present_mysql ["srv-42"])
    (Scripted.start
       [Scripted.Details Sample.no_clients;
        Scripted.Raises (DimensionDataAPIException "quota")]) =
  (Stopped (FailJson ("Failed adding client to host: " +:+ "quota")),
   RunState []
     ([] ++ [CallGetDetails "srv-42";
             CallAddClient "srv-42" "MySQL" "30 Day Storage Policy"
               "12AM - 6AM" "ON_FAILURE" "nobody@example.com"])).
Proof.
  split.
  - apply (proj1 (write_failure_message (Sample.absent_linux ["srv-42"]))
             (Scripted.start
                [Scripted.Details Sample.with_linux;
                 Scripted.Raises (DimensionDataAPIException "boom")])
             [] "srv-42" [] (false, ∅)
             [Scripted.Details Sample.with_linux;
              Scripted.Raises (DimensionDataAPIException "boom")]
             [] Sample.with_linux
             [Scripted.Raises (DimensionDataAPIException "boom")]
             Sample.linux_client "boom" []);
      try reflexivity.
    split; reflexivity.
  - apply (proj1 (proj2 (write_failure_message
                           (Sample.present_mysql ["srv-42"])))
             (Scripted.start
                [Scripted.Details Sample.no_clients;
                 Scripted.Raises (DimensionDataAPIException "quota")])
             [] "srv-42" [] (false, ∅)
             [Scripted.Details Sample.no_clients;
              Scripted.Raises (DimensionDataAPIException "quota")]
             [] Sample.no_clients
             [Scripted.Raises (DimensionDataAPIException "quota")]
             "30 Day Storage Policy" "12AM - 6AM" "MySQL" "quota" []);
      try reflexivity.
    split; reflexivity.
Defined.

(** ** More on the module's functions *)

(** *** The calls of a run *)

Section Calls.
Context {W : Type} `{BackupDriver W}.
Variable params : Params.t.

(** Processing a target appends its calls to the log. *)
Lemma loop_body_calls (server_id : string)
    (vars : bool * gmap string (gmap string pyval)) (s : run_state W) :
  exists g,
    calls (snd (loop_body params server_id vars s)) = calls s ++ g /\
    target_calls server_id g.
Proof.
  destruct s as [w tr], vars as [changed0 scr]. unfold_run.
  repeat split_answer;
    (eexists; split; [rewrite <- ?app_assoc; reflexivity|constructor]).
Qed.

Lemma for_each_calls (ids : list string)
    (vars : bool * gmap string (gmap string pyval)) (s : run_state W) :
  exists processed gs,
    processed `prefix_of` ids /\
    Forall2 target_calls processed gs /\
    calls (snd (for_each ids (loop_body params) vars s)) =
      calls s ++ concat gs /\
    (forall vars', fst (for_each ids (loop_body params) vars s) =
                     Returned vars' -> processed = ids).
Proof.
  revert vars s. induction ids as [|server_id ids IH]; intros vars s.
  - exists [], []. simpl. by rewrite app_nil_r.
  - simpl. unfold bind.
    destruct (loop_body_calls server_id vars s) as (g & Hg & Hshape).
    destruct (loop_body params server_id vars s) as [[vars1|t] s1];
      simpl in Hg.
    + destruct (IH vars1 s1) as (processed & gs & Hpre & Hall & Hcalls & Hret).
      exists (server_id :: processed), (g :: gs).
      split; [by apply prefix_cons|]. split; [by constructor|].
      split.
      * rewrite Hcalls, Hg. simpl. by rewrite app_assoc.
      * intros vars' Hfst. by rewrite (Hret vars' Hfst).
    + exists [server_id], [g].
      split; [apply prefix_cons, prefix_nil|].
      split; [by repeat constructor|].
      split; [simpl; by rewrite app_nil_r|done].
Qed.

Lemma handle_state (s0 : run_state W) :
  snd (handle_backup_client params s0) =
  snd (for_each (Params.node_ids params) (loop_body params) (false, ∅) s0).
Proof.
  unfold handle_backup_client, bind.
  by destruct (for_each _ _ _ s0) as [[vars|t] s1].
Qed.

Lemma target_calls_target (server_id : string) (g : list call) (c : call) :
  target_calls server_id g -> c ∈ g -> call_target c = server_id.
Proof.
  intros Hshape Hc. destruct Hshape;
    repeat (apply elem_of_cons in Hc as [->|Hc]; [done|]);
    by apply elem_of_nil in Hc.
Qed.



(** X1.  The calls of a run, after those already in the log, come in
    groups, one group per processed target, in the order of [node_ids]:
    each group starts with the read of its target and goes on with
    nothing, one write on it, or the add and the second read.  The
    processed targets are a prefix of [node_ids], and all of it when the
    run ends with [exit_json]. *)
Theorem run_calls_in_order (s0 : run_state W) :
  exists processed gs,
    processed `prefix_of` Params.node_ids params /\
    Forall2 target_calls processed gs /\
    calls (snd (handle_backup_client params s0)) = calls s0 ++ concat gs /\
    (forall r, fst (handle_backup_client params s0) = Stopped (ExitJson r) ->
               processed = Params.node_ids params).
Proof.
  destruct (for_each_calls (Params.node_ids params) (false, ∅) s0)
    as (processed & gs & Hpre & Hall & Hcalls & Hret).
  exists processed, gs. rewrite handle_state.
  repeat split; try done.
  intros r Hfst.
  destruct (handle_backup_client params s0) as [o s'] eqn:Hrun.
  simpl in Hfst. subst o.
  apply handle_exit_inv in Hrun as [vars [Hloop _]].
  apply (Hret vars). by rewrite Hloop.
Qed.

(** X2.  A run makes calls on the targets of [node_ids] only. *)
Theorem run_calls_on_listed_targets (s0 : run_state W) (c : call) :
  c ∈ calls (snd (handle_backup_client params s0)) ->
  c ∈ calls s0 \/ call_target c ∈ Params.node_ids params.
Proof.
  rewrite handle_state.
  destruct (for_each_calls (Params.node_ids params) (false, ∅) s0)
    as (processed & gs & Hpre & Hall & -> & _).
  intros [Hold|Hnew]%elem_of_app; [by left|right].
  apply list_elem_of_In, in_concat in Hnew as (g & Hg & Hc).
  apply list_elem_of_In in Hg, Hc.
  apply list_elem_of_lookup in Hg as [i Hi].
  destruct (Forall2_lookup_r _ _ _ _ _ Hall Hi) as (server_id & Hsid & Hshape).
  rewrite (target_calls_target _ _ _ Hshape Hc).
  destruct Hpre as [rest ->]. apply elem_of_app. left.
  by apply list_elem_of_lookup_2 in Hsid.
Qed.


End Calls.

(** *** The calls a state rules out, and the changed flag *)

(** Closes a goal on the calls kept by a filter, once the step is down to
    one case. *)
Ltac filter_calls :=
  simpl; rewrite ?List.filter_app; simpl; rewrite ?app_nil_r; done.

Section Flag.
Context {W : Type} `{BackupDriver W}.
Variable params : Params.t.

(** A kind of call that no step makes is made by no run. *)
Lemma filter_preserved_run (f : call -> bool) :
  (forall server_id vars (s : run_state W),
      List.filter f (calls (snd (loop_body params server_id vars s))) =
      List.filter f (calls s)) ->
  forall s0 : run_state W,
    List.filter f (calls (snd (handle_backup_client params s0))) =
    List.filter f (calls s0).
Proof.
  intros Hstep s0. rewrite handle_state.
  generalize (false, ∅ : gmap string (gmap string pyval)).
  revert s0. induction (Params.node_ids params) as [|server_id ids IH];
    intros s vars; [done|].
  simpl. unfold bind. specialize (Hstep server_id vars s).
  destruct (loop_body params server_id vars s) as [[vars1|t] s1];
    simpl in *; [by rewrite IH|done].
Qed.

(** X4.  With desired state "absent" a run makes no add call and no
    modify call. *)
Theorem absent_never_adds_or_modifies (s0 : run_state W) :
  Params.state params = "absent" ->
  List.filter (fun c => is_add c || is_modify c)
    (calls (snd (handle_backup_client params s0))) =
  List.filter (fun c => is_add c || is_modify c) (calls s0).
Proof.
  intros Habsent. apply filter_preserved_run.
  intros server_id [changed0 scr] [w tr]. unfold_run.
  rewrite Habsent. simpl. repeat split_answer; filter_calls.
Qed.

(** X5.  With desired state "present" a run makes no remove call. *)
Theorem present_never_removes (s0 : run_state W) :
  Params.state params = "present" ->
  List.filter is_remove (calls (snd (handle_backup_client params s0))) =
  List.filter is_remove (calls s0).
Proof.
  intros Hpresent. apply filter_preserved_run.
  intros server_id [changed0 scr] [w tr]. unfold_run.
  rewrite Hpresent. simpl. repeat split_answer; filter_calls.
Qed.

(** Processing a target to its end turns the flag on when, and only
    when, it makes an add or a remove call. *)
Lemma loop_body_flag (server_id : string) (changed0 changed1 : bool)
    (scr scr1 : gmap string (gmap string pyval)) (s s1 : run_state W) :
  loop_body params server_id (changed0, scr) s =
    (Returned (changed1, scr1), s1) ->
  exists g, calls s1 = calls s ++ g /\
            changed1 = changed0 || existsb sets_changed g.
Proof.
  destruct s as [w tr]. unfold_run.
  repeat split_answer; intros Heq; try discriminate Heq;
    injection Heq as <- <- <-;
    (eexists; split; [rewrite <- ?app_assoc; reflexivity|]);
    simpl; by rewrite ?orb_true_r, ?orb_false_r.
Qed.

Lemma for_each_flag (ids : list string)
    (vars vars1 : bool * gmap string (gmap string pyval))
    (s s1 : run_state W) :
  for_each ids (loop_body params) vars s = (Returned vars1, s1) ->
  exists new, calls s1 = calls s ++ new /\
              fst vars1 = fst vars || existsb sets_changed new.
Proof.
  revert vars s. induction ids as [|server_id ids IH]; intros vars s.
  - intros [= <- <-]. exists []. simpl.
    by rewrite app_nil_r, orb_false_r.
  - simpl. unfold bind.
    destruct (loop_body params server_id vars s) as [[vars'|t] s'] eqn:Hbody;
      [|done].
    intros (new & Hnew & Hflag)%IH.
    destruct vars as [changed0 scr], vars' as [changed' scr'].
    apply loop_body_flag in Hbody as (g & Hg & Hflag').
    exists (g ++ new). rewrite Hnew, Hg, <- app_assoc. split; [done|].
    simpl in *. by rewrite Hflag, Hflag', existsb_app, orb_assoc.
Qed.

(** X6.  In the report of a run, [changed] is true exactly when the run
    has made an add call or a remove call. *)
Theorem changed_iff_add_or_remove (s0 s' : run_state W) (r : report) :
  handle_backup_client params s0 = (Stopped (ExitJson r), s') ->
  exists new,
    calls s' = calls s0 ++ new /\
    changed r = existsb sets_changed new.
Proof.
  intros [vars [Hloop ->]]%handle_exit_inv.
  apply for_each_flag in Hloop as (new & Hnew & Hflag).
  exists new. by split.
Qed.

End Flag.

(** *** The result map of a run with desired state "present" *)

(** Case analysis on a search for the client, keeping what it found. *)
Ltac split_found :=
  match goal with
  | |- context [get_backup_client ?a ?b] =>
      destruct (get_backup_client a b) eqn:?
  end; simpl.

Section PresentReport.
Context {W : Type} `{BackupDriver W}.
Variable params : Params.t.
Hypothesis Hpresent : Params.state params = "present".

Lemma present_step_entry (server_id : string)
    (vars vars1 : bool * gmap string (gmap string pyval))
    (s s1 : run_state W) :
  loop_body params server_id vars s = (Returned vars1, s1) ->
  exists c,
    snd vars1 = <[server_id := client_dict c]> (snd vars) /\
    py_eq (ClientType.type (BackupClient.type c))
          (Params.client_type params) = true.
Proof.
  destruct s as [w tr], vars as [changed0 scr]. unfold_run.
  rewrite Hpresent. simpl.
  repeat (first [split_found | split_answer]);
    intros Heq; try discriminate Heq; injection Heq as <- <-;
    (eexists; split; [reflexivity|]);
    match goal with
    | Hf : get_backup_client _ _ = Some _ |- _ =>
        apply get_backup_client_Some in Hf as [_ Hf]; exact Hf
    end.
Qed.

Lemma present_loop_entries (ids : list string)
    (vars vars1 : bool * gmap string (gmap string pyval))
    (s s1 : run_state W) (P : gmap string pyval -> Prop) :
  (forall c, py_eq (ClientType.type (BackupClient.type c))
                   (Params.client_type params) = true ->
             P (client_dict c)) ->
  for_each ids (loop_body params) vars s = (Returned vars1, s1) ->
  dom (snd vars1) = dom (snd vars) ∪ list_to_set ids /\
  (map_Forall (fun _ => P) (snd vars) -> map_Forall (fun _ => P) (snd vars1)).
Proof.
  intros HP. revert vars s. induction ids as [|server_id ids IH];
    intros vars s.
  - intros [= <- <-]. split; [|done].
    by rewrite list_to_set_nil, (right_id_L ∅ (∪)).
  - simpl. unfold bind.
    destruct (loop_body params server_id vars s) as [[vars'|t] s'] eqn:Hbody;
      [|done].
    intros [Hdom Hall]%IH.
    apply present_step_entry in Hbody as (c & Hentry & Htype).
    rewrite Hentry in Hdom, Hall. split.
    + rewrite Hdom, dom_insert_L.
      rewrite (comm_L (∪) {[server_id]} (dom vars.2)).
      by rewrite (assoc_L (∪)).
    + intros Hvars. apply Hall, map_Forall_insert_2; [by apply HP|done].
Qed.

(** X7.  The report of a run with desired state "present" has an entry
    for every target of [node_ids] and for nothing else, and every entry
    is the serialization of a client of the requested client type. *)
Theorem present_report_entries (s0 s' : run_state W) (r : report) :
  handle_backup_client params s0 = (Stopped (ExitJson r), s') ->
  dom (backups r) = list_to_set (Params.node_ids params) /\
  forall (server_id : string) (d : gmap string pyval),
    backups r !! server_id = Some d ->
    exists c,
      d = client_dict c /\
      Params.client_type params =
        Some (ClientType.type (BackupClient.type c)).
Proof.
  intros [vars [Hloop ->]]%handle_exit_inv. simpl.
  apply (present_loop_entries _ _ _ _ _
           (fun d => exists c,
                d = client_dict c /\
                Params.client_type params =
                  Some (ClientType.type (BackupClient.type c))))
    in Hloop as [Hdom Hall].
  - simpl in Hdom, Hall. split.
    + by rewrite Hdom, dom_empty_L, (left_id_L ∅ (∪)).
    + intros server_id d Hd. apply (Hall (map_Forall_empty _) _ _ Hd).
  - intros c Htype. exists c. split; [done|].
    destruct (Params.client_type params) as [ct|]; [|done].
    simpl in Htype. by apply String.eqb_eq in Htype as ->.
Qed.

End PresentReport.

(** *** The modify call *)

Section NoModify.
Context {W : Type} `{BackupDriver W}.
Variable params : Params.t.

(** X8.  No run calls [update_target]: the one branch that leads to
    [modify_backup_for_server], desired state "present" with the client
    found, raises on the attribute read of line 194 before the call. *)
Theorem run_never_modifies (s0 : run_state W) :
  List.filter is_modify (calls (snd (handle_backup_client params s0))) =
  List.filter is_modify (calls s0).
Proof.
  apply filter_preserved_run.
  intros server_id [changed0 scr] [w tr]. unfold_run.
  repeat split_answer; filter_calls.
Qed.

End NoModify.

(** *** States other than the two, and the messages of [fail_json] *)

Section Failures.
Context {W : Type} `{BackupDriver W}.
Variable params : Params.t.

(** X9.  With a desired state that is neither "absent" nor "present", a
    run with a first target to read ends with [fail_json] and the message
    "Unhandled state" as soon as that read returns, whatever it returns;
    nothing is written. *)
Theorem unhandled_state_fails
    (server_id : string) (after : list string)
    (w : W) (tr : list call) (d : BackupDetails.t) (w1 : W) :
  Params.state params <> "absent" ->
  Params.state params <> "present" ->
  Params.node_ids params = server_id :: after ->
  ex_get_backup_details_for_target server_id w = (inr d, w1) ->
  handle_backup_client params (RunState w tr) =
    (Stopped (FailJson "Unhandled state"),
     RunState w1 (tr ++ [CallGetDetails server_id])).
Proof.
  intros Habsent%String.eqb_neq Hpresent%String.eqb_neq Hids Hget.
  apply (handle_stops_at params _ [] server_id after (false, ∅)
           (RunState w tr)); [by split|].
  unfold_run. answer Hget. rewrite Habsent, Hpresent.
  by destruct (get_backup_client d _).
Qed.

(** The message of a [fail_json] that stops the processing of a target. *)
Lemma loop_body_fail_message (ids : list string) (server_id : string)
    (vars : bool * gmap string (gmap string pyval))
    (s s' : run_state W) (m : string) :
  server_id ∈ ids ->
  loop_body params server_id vars s = (Stopped (FailJson m), s') ->
  fail_message ids m.
Proof.
  intros Hin. destruct s as [w tr], vars as [changed0 scr]. unfold_run.
  repeat split_answer; intros Heq; try discriminate Heq;
    injection Heq as <- <-;
    first [ by apply msg_not_enabled
          | apply msg_problem_finding
          | apply msg_failed_removing
          | apply msg_failed_adding
          | apply msg_unhandled_state
          | apply msg_need_key; repeat constructor ].
Qed.

Lemma for_each_fail_message (all ids : list string)
    (vars : bool * gmap string (gmap string pyval))
    (s s' : run_state W) (m : string) :
  ids ⊆ all ->
  for_each ids (loop_body params) vars s = (Stopped (FailJson m), s') ->
  fail_message all m.
Proof.
  revert vars s. induction ids as [|server_id ids IH]; intros vars s Hsub;
    [done|].
  simpl. unfold bind.
  destruct (loop_body params server_id vars s) as [[vars1|t] s1] eqn:Hbody.
  - apply IH. intros x Hx. apply Hsub. by right.
  - intros [= -> <-].
    apply (loop_body_fail_message all) in Hbody; [done|].
    apply Hsub. by left.
Qed.

(** X10.  When a run ends with [fail_json], the message is one of six:
    "Server <id> does not have backup enabled" for a target <id> of
    [node_ids], "Problem finding backup info for host: ", "Failed
    removing client from host: " or "Failed adding client to host: "
    followed by a provider message, "Need key <k> for adding a client"
    for one of the three keys, or "Unhandled state". *)
Theorem fail_json_messages (s0 s' : run_state W) (m : string) :
  handle_backup_client params s0 = (Stopped (FailJson m), s') ->
  fail_message (Params.node_ids params) m.
Proof.
  unfold handle_backup_client, bind.
  destruct (for_each _ _ _ s0) as [[vars|t] s1] eqn:Hloop; [done|].
  intros [= -> <-]. by apply (for_each_fail_message _ _ _ _ _ _ (reflexivity _)) in Hloop.
Qed.

End Failures.

(** *** The search for the client *)

Lemma find_first {A} (f : A -> bool) (l : list A) (x : A) :
  List.find f l = Some x <->
  exists before after,
    l = before ++ x :: after /\ f x = true /\
    Forall (fun y => f y = false) before.
Proof.
  induction l as [|a l IH]; simpl.
  - split; [done|]. intros (before & after & Hl & _).
    by destruct before.
  - destruct (f a) eqn:Ha.
    + split.
      * intros [= ->]. by exists [], l.
      * intros (before & after & Hl & Hx & Hbefore).
        destruct before as [|b before]; simplify_eq/=; [done|].
        apply Forall_cons in Hbefore as [Hb _]. congruence.
    + rewrite IH. split.
      * intros (before & after & -> & Hx & Hbefore).
        exists (a :: before), after. repeat split; [done|by constructor].
      * intros (before & after & Hl & Hx & Hbefore).
        destruct before as [|b before]; simplify_eq/=; [congruence|].
        apply Forall_cons in Hbefore as [_ Hbefore].
        by exists before, after.
Qed.

(** X11.  [get_backup_client] returns the first client of the details
    whose type is the requested one: a client is returned exactly when it
    is in the list of clients, has the requested type, and no client
    before it in the list has. *)
Theorem get_backup_client_first_match (details : BackupDetails.t)
    (client_type : option string) (c : BackupClient.t) :
  get_backup_client details client_type = Some c <->
  exists before after,
    BackupDetails.clients details = before ++ c :: after /\
    client_type = Some (ClientType.type (BackupClient.type c)) /\
    Forall (fun x => client_type <>
                     Some (ClientType.type (BackupClient.type x))) before.
Proof.
  assert (Hty : forall x : BackupClient.t,
             py_eq (ClientType.type (BackupClient.type x)) client_type = true
             <-> client_type = Some (ClientType.type (BackupClient.type x))).
  { intros x. destruct client_type as [ct|]; simpl; [|done].
    rewrite String.eqb_eq. split; congruence. }
  unfold get_backup_client.
  destruct (BackupDetails.clients details) as [|c0 cs] eqn:Hcs.
  - split; [done|]. intros (before & after & Hl & _). by destruct before.
  - change (0 <? length (c0 :: cs)) with true. cbv iota.
    rewrite find_first. split.
    + intros (before & after & Hl & Hc & Hbefore).
      exists before, after. split; [done|]. split; [by apply Hty|].
      eapply Forall_impl; [exact Hbefore|].
      intros x Hx Heq. apply Hty in Heq. congruence.
    + intros (before & after & Hl & Hc & Hbefore).
      exists before, after. split; [done|]. split; [by apply Hty|].
      eapply Forall_impl; [exact Hbefore|].
      intros x Hx. apply not_true_is_false. by rewrite Hty.
Qed.

(** *** The choices of [storage_policy] *)

Lemma storage_policy_choices_loop_spec (lengths acc : list string) :
  storage_policy_choices_loop lengths acc =
  acc ++ flat_map (fun len => [len +:+ " Storage Policy";
                               len +:+ " Storage Policy + Secondary Copy"])
                  lengths.
Proof.
  revert acc. induction lengths as [|len lengths IH]; intros acc; simpl.
  - by rewrite app_nil_r.
  - by rewrite IH, <- !app_assoc.
Qed.

(** X12.  The loop of [_storage_policy_choices] gives, for each length
    in order, "<length> Storage Policy" followed by "<length> Storage
    Policy + Secondary Copy", and so twice as many values as lengths.  The
    accepted values of [storage_policy] are those of the twelve lengths of
    the code, twenty-four values, all different. *)
Theorem storage_policy_choices_spec :
  (forall (lengths : list string) (x : string),
      x ∈ storage_policy_choices_loop lengths [] <->
      exists len, len ∈ lengths /\
                  (x = len +:+ " Storage Policy" \/
                   x = len +:+ " Storage Policy + Secondary Copy")) /\
  (forall lengths : list string,
      length (storage_policy_choices_loop lengths []) = 2 * length lengths) /\
  _storage_policy_choices =
    flat_map (fun len => [len +:+ " Storage Policy";
                          len +:+ " Storage Policy + Secondary Copy"])
             storage_policy_lengths /\
  length _storage_policy_choices = 24 /\
  NoDup _storage_policy_choices.
Proof.
  split; [|split; [|split; [|split]]].
  - intros lengths x.
    rewrite storage_policy_choices_loop_spec, app_nil_l.
    rewrite list_elem_of_In, in_flat_map. split.
    + intros (len & Hlen & Hx). exists len.
      split; [by apply list_elem_of_In|].
      destruct Hx as [<-|[<-|[]]]; auto.
    + intros (len & Hlen & Hx). exists len.
      split; [by apply list_elem_of_In|].
      destruct Hx as [->| ->]; simpl; auto.
  - intros lengths. rewrite storage_policy_choices_loop_spec, app_nil_l.
    induction lengths as [|len lengths IH]; simpl; [done|].
    rewrite IH. lia.
  - exact (storage_policy_choices_loop_spec storage_policy_lengths []).
  - reflexivity.
  - apply (bool_decide_unpack _). vm_compute. reflexivity.
Qed.

(** *** The reads of a run with desired state "absent" *)

Section AbsentReads.
Context {W : Type} `{BackupDriver W}.
Variable params : Params.t.
Hypothesis Habsent : Params.state params = "absent".

Lemma absent_step_reads (server_id : string)
    (vars vars1 : bool * gmap string (gmap string pyval))
    (s s1 : run_state W) :
  loop_body params server_id vars s = (Returned vars1, s1) ->
  exists g, calls s1 = calls s ++ g /\
            List.filter is_get g = [CallGetDetails server_id].
Proof.
  destruct s as [w tr], vars as [changed0 scr]. unfold_run.
  rewrite Habsent. simpl.
  repeat split_answer; intros Heq; try discriminate Heq;
    injection Heq as <- <-;
    (eexists; split; [rewrite <- ?app_assoc; reflexivity|done]).
Qed.

(** X13.  With desired state "absent", a run that ends with [exit_json]
    has read every target of [node_ids] exactly once, in the order of the
    list. *)
Theorem absent_reads_each_target_once (s0 s' : run_state W) (r : report) :
  handle_backup_client params s0 = (Stopped (ExitJson r), s') ->
  exists new,
    calls s' = calls s0 ++ new /\
    List.filter is_get new = map CallGetDetails (Params.node_ids params).
Proof.
  intros [vars [Hloop _]]%handle_exit_inv. revert Hloop.
  generalize (false, ∅ : gmap string (gmap string pyval)).
  revert s0. induction (Params.node_ids params) as [|server_id ids IH];
    intros s0 vars0.
  - intros [= <- <-]. exists []. by rewrite app_nil_r.
  - simpl. unfold bind.
    destruct (loop_body params server_id vars0 s0) as [[vars1|t] s1]
      eqn:Hbody; [|done].
    intros (new & Hnew & Hreads)%IH.
    apply absent_step_reads in Hbody as (g & Hg & Hread).
    exists (g ++ new). rewrite Hnew, Hg, <- app_assoc. split; [done|].
    by rewrite List.filter_app, Hread, Hreads.
Qed.

End AbsentReads.

(** *** What the calls carry *)

Section Arguments.
Context {W : Type} `{BackupDriver W}.
Variable params : Params.t.

Lemma requested_type (c : BackupClient.t) :
  py_eq (ClientType.type (BackupClient.type c)) (Params.client_type params)
    = true ->
  Params.client_type params = Some (ClientType.type (BackupClient.type c)).
Proof.
  destruct (Params.client_type params) as [ct|]; [|done].
  simpl. by intros ->%String.eqb_eq.
Qed.

Lemma loop_body_arguments (server_id : string)
    (vars : bool * gmap string (gmap string pyval)) (s : run_state W) :
  exists g,
    calls (snd (loop_body params server_id vars s)) = calls s ++ g /\
    Forall (follows_params params) g.
Proof.
  destruct s as [w tr], vars as [changed0 scr]. unfold_run.
  destruct (ex_get_backup_details_for_target server_id w)
    as [[[e_msg|e_msg]|d] w1]; simpl.
  - exists [CallGetDetails server_id].
    split; [by destruct (endswith e_msg _)|by repeat constructor].
  - exists [CallGetDetails server_id]. by repeat constructor.
  - destruct (get_backup_client d _) as [bc|] eqn:Hfound.
    + apply get_backup_client_Some in Hfound as [_ Htype%requested_type].
      repeat split_answer;
        (eexists; split; [rewrite <- ?app_assoc; reflexivity|]);
        repeat constructor; try done; simpl; by rewrite dom_singleton_L.
    + destruct (Params.storage_policy params) as [sp|] eqn:Hsp,
               (Params.schedule_policy params) as [sc|] eqn:Hsc,
               (Params.client_type params) as [ct|] eqn:Hct; simpl;
        repeat split_answer;
        (eexists; split; [rewrite <- ?app_assoc; reflexivity|]);
        repeat constructor; simpl; by rewrite ?Hsp, ?Hsc, ?Hct.
Qed.

(** X14.  Every add call of a run carries the client type, the storage
    policy and the schedule policy of the parameters, with their trigger and
    email; every remove call is for a client of the requested type; every
    modify call sets [servicePlan] and nothing else. *)
Theorem calls_follow_params (s0 : run_state W) :
  exists new,
    calls (snd (handle_backup_client params s0)) = calls s0 ++ new /\
    Forall (follows_params params) new.
Proof.
  rewrite handle_state.
  generalize (false, ∅ : gmap string (gmap string pyval)).
  revert s0. induction (Params.node_ids params) as [|server_id ids IH];
    intros s vars.
  - exists []. simpl. by rewrite app_nil_r.
  - simpl. unfold bind.
    destruct (loop_body_arguments server_id vars s) as (g & Hg & Hok).
    destruct (loop_body params server_id vars s) as [[vars1|t] s1];
      simpl in Hg.
    + destruct (IH s1 vars1) as (new & Hnew & Hnew_ok).
      exists (g ++ new). rewrite Hnew, Hg, <- app_assoc.
      split; [done|by apply Forall_app].
    + exists g. by split.
Qed.

End Arguments.

(** *** The serialized client, read back *)

(** X15.  The five entries of a serialized client hold the client's id,
    type, storage policy, schedule policy and download URL, so that two
    clients have the same serialization exactly when they agree on these
    five attributes. *)
Theorem client_dict_determines_fields (c1 c2 : BackupClient.t) :
  client_dict c1 = client_dict c2 <->
  BackupClient.id c1 = BackupClient.id c2 /\
  ClientType.type (BackupClient.type c1) =
    ClientType.type (BackupClient.type c2) /\
  BackupClient.storage_policy c1 = BackupClient.storage_policy c2 /\
  BackupClient.schedule_policy c1 = BackupClient.schedule_policy c2 /\
  BackupClient.download_url c1 = BackupClient.download_url c2.
Proof.
  split.
  - intros Heq.
    destruct (client_dict_fields c1) as (Hid1 & Hty1 & Hsp1 & Hsc1 & Hurl1).
    destruct (client_dict_fields c2) as (Hid2 & Hty2 & Hsp2 & Hsc2 & Hurl2).
    rewrite Heq in Hid1, Hty1, Hsp1, Hsc1, Hurl1.
    rewrite Hid2 in Hid1. rewrite Hty2 in Hty1. rewrite Hsp2 in Hsp1.
    rewrite Hsc2 in Hsc1. rewrite Hurl2 in Hurl1.
    repeat split; try congruence.
    destruct (BackupClient.download_url c1), (BackupClient.download_url c2);
      simpl in Hurl1; congruence.
  - intros (Hid & Hty & Hsp & Hsc & Hurl). unfold client_dict.
    by rewrite Hid, Hty, Hsp, Hsc, Hurl.
Qed.

(** ** These theorems at concrete runs *)

Lemma run_calls_on_listed_targets_witness :
  CallRemoveClient "A" Sample.linux_client ∈
    calls (snd (handle_backup_client (Sample.absent_linux ["A"; "B"])
                  (Scripted.start [Scripted.Details Sample.with_linux;
                                   Scripted.Done;
                                   Scripted.Details Sample.no_clients]))) /\
  (CallRemoveClient "A" Sample.linux_client ∈ ([] : list call) \/
   "A" ∈ ["A"; "B"]).
Proof.
  assert (Hin : CallRemoveClient "A" Sample.linux_client ∈
    calls (snd (handle_backup_client (Sample.absent_linux ["A"; "B"])
                  (Scripted.start [Scripted.Details Sample.with_linux;
                                   Scripted.Done;
                                   Scripted.Details Sample.no_clients])))).
  { vm_compute. apply list_elem_of_further, list_elem_of_here. }
  split; [exact Hin|].
  exact (run_calls_on_listed_targets (Sample.absent_linux ["A"; "B"])
           _ _ Hin).
Defined.

Lemma absent_never_adds_or_modifies_witness :
  Params.state (Sample.absent_linux ["A"; "B"]) = "absent" /\
  List.filter (fun c => is_add c || is_modify c)
    (calls (snd (handle_backup_client (Sample.absent_linux ["A"; "B"])
                   (Scripted.start [Scripted.Details Sample.with_linux;
                                    Scripted.Done;
                                    Scripted.Details Sample.no_clients])))) =
  List.filter (fun c => is_add c || is_modify c) [].
Proof.
  split; [reflexivity|].
  apply (absent_never_adds_or_modifies (Sample.absent_linux ["A"; "B"])
           (Scripted.start [Scripted.Details Sample.with_linux;
                            Scripted.Done;
                            Scripted.Details Sample.no_clients])).
  reflexivity.
Defined.

Lemma present_never_removes_witness :
  Params.state (Sample.present_mysql ["A"]) = "present" /\
  List.filter is_remove
    (calls (snd (handle_backup_client (Sample.present_mysql ["A"])
                   (Scripted.start [Scripted.Details Sample.no_clients;
                                    Scripted.Client Sample.mysql_client;
                                    Scripted.Details Sample.with_mysql])))) =
  List.filter is_remove [].
Proof.
  split; [reflexivity|].
  apply (present_never_removes (Sample.present_mysql ["A"])
           (Scripted.start [Scripted.Details Sample.no_clients;
                            Scripted.Client Sample.mysql_client;
                            Scripted.Details Sample.with_mysql])).
  reflexivity.
Defined.

Lemma changed_iff_add_or_remove_witness :
  exists new,
    [CallGetDetails "A"; CallRemoveClient "A" Sample.linux_client;
     CallGetDetails "B"] = [] ++ new /\
    true = existsb sets_changed new.
Proof.
  apply (changed_iff_add_or_remove (Sample.absent_linux ["A"; "B"])
           (Scripted.start [Scripted.Details Sample.with_linux;
                            Scripted.Done;
                            Scripted.Details Sample.no_clients])
           (RunState []
              [CallGetDetails "A"; CallRemoveClient "A" Sample.linux_client;
               CallGetDetails "B"])
           {| changed := true; msg := "Success"; backups := ∅ |}).
  vm_compute. reflexivity.
Defined.

Lemma present_report_entries_witness :
  Params.state (Sample.present_mysql ["A"; "B"]) = "present" /\
  dom ({[ "A" := client_dict Sample.mysql_client;
          "B" := client_dict Sample.mysql_client ]}
         : gmap string (gmap string pyval)) =
    (list_to_set ["A"; "B"] : gset string).
Proof.
  split; [reflexivity|].
  assert (Hrun :
    handle_backup_client (Sample.present_mysql ["A"; "B"])
      (Scripted.start [Scripted.Details Sample.no_clients;
                       Scripted.Client Sample.mysql_client;
                       Scripted.Details Sample.with_mysql;
                       Scripted.Details Sample.with_linux;
                       Scripted.Client Sample.mysql_client;
                       Scripted.Details Sample.with_mysql]) =
    (Stopped (ExitJson
       {| changed := true;
          msg := "Success";
          backups := {[ "A" := client_dict Sample.mysql_client;
                        "B" := client_dict Sample.mysql_client ]} |}),
     RunState []
       [CallGetDetails "A";
        CallAddClient "A" "MySQL" "30 Day Storage Policy"
          "12AM - 6AM" "ON_FAILURE" "nobody@example.com";
        CallGetDetails "A";
        CallGetDetails "B";
        CallAddClient "B" "MySQL" "30 Day Storage Policy"
          "12AM - 6AM" "ON_FAILURE" "nobody@example.com";
        CallGetDetails "B"])).
  { vm_compute. reflexivity. }
  exact (proj1 (present_report_entries (Sample.present_mysql ["A"; "B"])
                  eq_refl _ _ _ Hrun)).
Defined.

Lemma unhandled_state_fails_witness :
  let params := {| Params.state := "latest";
                   Params.node_ids := ["A"; "B"];
                   Params.client_type := Some "MySQL";
                   Params.schedule_policy := None;
                   Params.storage_policy := None;
                   Params.notify_email := "nobody@example.com";
                   Params.notify_trigger := "ON_FAILURE" |} in
  Params.state params <> "absent" /\
  Params.state params <> "present" /\
  handle_backup_client params
    (RunState [Scripted.Details Sample.with_mysql; Scripted.Done] []) =
  (Stopped (FailJson "Unhandled state"),
   RunState [Scripted.Done] ([] ++ [CallGetDetails "A"])).
Proof.
  intros params.
  assert (Habsent : Params.state params <> "absent") by discriminate.
  assert (Hpresent : Params.state params <> "present") by discriminate.
  split; [exact Habsent|]. split; [exact Hpresent|].
  apply (unhandled_state_fails params "A" ["B"] _ [] Sample.with_mysql
           [Scripted.Done] Habsent Hpresent); reflexivity.
Defined.

Lemma fail_json_messages_witness :
  fail_message ["A"; "Z"]
    ("Server " +:+ "Z" +:+ " does not have backup enabled").
Proof.
  apply (fail_json_messages (Sample.absent_linux ["A"; "Z"])
           (RunState ({[ "A" := Sample.with_linux ]}
                        : gmap string BackupDetails.t) [])
           (RunState ({[ "A" := {| BackupDetails.service_plan := "Enterprise";
                                   BackupDetails.clients := [] |} ]}
                        : gmap string BackupDetails.t)
              [CallGetDetails "A"; CallRemoveClient "A" Sample.linux_client;
               CallGetDetails "Z"])).
  vm_compute. reflexivity.
Defined.

Lemma absent_reads_each_target_once_witness :
  Params.state (Sample.absent_linux ["A"; "B"]) = "absent" /\
  exists new,
    [CallGetDetails "A"; CallRemoveClient "A" Sample.linux_client;
     CallGetDetails "B"] = [] ++ new /\
    List.filter is_get new = map CallGetDetails ["A"; "B"].
Proof.
  split; [reflexivity|].
  apply (absent_reads_each_target_once (Sample.absent_linux ["A"; "B"])
           eq_refl
           (Scripted.start [Scripted.Details Sample.with_linux;
                            Scripted.Done;
                            Scripted.Details Sample.no_clients])
           (RunState []
              [CallGetDetails "A"; CallRemoveClient "A" Sample.linux_client;
               CallGetDetails "B"])
           {| changed := true; msg := "Success"; backups := ∅ |}).
  vm_compute. reflexivity.
Defined.
